(** * flask_security.totp: the TOTP wrapper of Flask-Security

    A shallow embedding of [src/flask_security/totp.py] (class [Totp]) and of
    the part of [passlib.totp] that the class delegates to, followed by the
    properties of the anti-replay and windowing logic.

    Layout:
    - [SHA1]      : HMAC-SHA1, the digest passlib uses by default;
    - [Py]        : Python values, exceptions and the result type;
    - [Passlib]   : the library imported at totp.py:11 ([TOTP], [TotpMatch],
                    [TokenError]), over an interface of cryptographic
                    primitives;
    - [FlaskTotp] : the class [Totp] itself, method by method;
    - [Rfc]       : a concrete backend (HMAC-SHA1, a counter-mode cipher) and
                    concrete runs on the RFC 4226 test secret;
    - theorems. *)

From Stdlib Require Import ZArith String Ascii List Lia Bool.
From stdpp Require Import base option gmap strings list.

Local Open Scope Z_scope.

(* ===================================================================== *)
(** ** HMAC-SHA1 on byte lists (FIPS 180-4, RFC 2104)                      *)
(* ===================================================================== *)

Module SHA1.

(** 32-bit words are [Z] with the wrap-around written out. *)
Definition w32 (x : Z) : Z := Z.land x 0xFFFFFFFF.

Definition rotl (n x : Z) : Z :=
  w32 (Z.lor (Z.shiftl x n) (Z.shiftr x (32 - n))).

Definition add32 (x y : Z) : Z := w32 (x + y).

(** [n] bytes of [x], most significant first. *)
Definition be_bytes (n : nat) (x : Z) : list Z :=
  map (fun i => Z.land (Z.shiftr x (8 * Z.of_nat i)) 0xFF) (rev (seq 0 n)).

Definition be_word (bs : list Z) : Z :=
  fold_left (fun acc b => Z.lor (Z.shiftl acc 8) b) bs 0.

Definition pad (msg : list Z) : list Z :=
  let len := Z.of_nat (length msg) in
  let zeros := Z.to_nat ((55 - len) mod 64) in
  msg ++ 0x80 :: repeat 0 zeros ++ be_bytes 8 (8 * len).

Fixpoint chunks (n k : nat) (l : list Z) : list (list Z) :=
  match k with
  | O => []
  | S k' => take n l :: chunks n k' (drop n l)
  end.

(** Message schedule: extends the 16 block words by [fuel] more. *)
Fixpoint schedule (fuel : nat) (w : list Z) : list Z :=
  match fuel with
  | O => w
  | S f =>
      let t := length w in
      let g i := nth (t - i) w 0 in
      let x := Z.lxor (Z.lxor (g 3%nat) (g 8%nat)) (Z.lxor (g 14%nat) (g 16%nat)) in
      schedule f (w ++ [rotl 1 x])
  end.

Definition round_fk (t : nat) (b c d : Z) : Z * Z :=
  if (t <? 20)%nat then
    (Z.lor (Z.land b c) (Z.land (Z.lxor b 0xFFFFFFFF) d), 0x5A827999)
  else if (t <? 40)%nat then
    (Z.lxor (Z.lxor b c) d, 0x6ED9EBA1)
  else if (t <? 60)%nat then
    (Z.lor (Z.lor (Z.land b c) (Z.land b d)) (Z.land c d), 0x8F1BBCDC)
  else
    (Z.lxor (Z.lxor b c) d, 0xCA62C1D6).

Definition hstate : Type := Z * Z * Z * Z * Z.

Fixpoint rounds (t : nat) (ws : list Z) (s : hstate) : hstate :=
  match ws with
  | [] => s
  | w :: ws' =>
      let '(a, b, c, d, e) := s in
      let '(f, k) := round_fk t b c d in
      let tmp := add32 (add32 (add32 (add32 (rotl 5 a) f) e) k) w in
      rounds (S t) ws' (tmp, a, rotl 30 b, c, d)
  end.

Definition compress (s : hstate) (block : list Z) : hstate :=
  let w := schedule 64 (map be_word (chunks 4 16 block)) in
  let '(a, b, c, d, e) := s in
  let '(a', b', c', d', e') := rounds 0 w s in
  (add32 a a', add32 b b', add32 c c', add32 d d', add32 e e').

Definition init : hstate :=
  (0x67452301, 0xEFCDAB89, 0x98BADCFE, 0x10325476, 0xC3D2E1F0).

Definition digest (msg : list Z) : list Z :=
  let p := pad msg in
  let '(a, b, c, d, e) :=
    fold_left compress (chunks 64 (length p / 64) p) init in
  be_bytes 4 a ++ be_bytes 4 b ++ be_bytes 4 c ++ be_bytes 4 d ++ be_bytes 4 e.

Definition block_size : nat := 64.

Definition hmac (key msg : list Z) : list Z :=
  let key0 := if (block_size <? length key)%nat then digest key else key in
  let key1 := key0 ++ repeat 0 (block_size - length key0) in
  let ipad := map (Z.lxor 0x36) key1 in
  let opad := map (Z.lxor 0x5C) key1 in
  digest (opad ++ digest (ipad ++ msg)).

End SHA1.

(* ===================================================================== *)
(** ** Python values, exceptions, results                                  *)
(* ===================================================================== *)

Module Py.

(** Python [bytes] and [str] are both modelled by [string]: one [ascii]
    per byte (resp. per Latin-1 code point). *)
Definition ord (a : ascii) : Z := Z.of_N (N_of_ascii a).
Definition chr (z : Z) : ascii := ascii_of_N (Z.to_N (z mod 256)).

Definition bytes_of (s : string) : list Z := map ord (list_ascii_of_string s).
Definition of_bytes (l : list Z) : string := string_of_list_ascii (map chr l).

(** The subclasses of [passlib.exc.TokenError]. *)
Inductive token_error : Type :=
| MalformedTokenError
| InvalidTokenError
| UsedTokenError.

(** The exceptions that can cross [Totp]'s methods.  [TokenError] is a
    subclass of [ValueError] in passlib; an [except TokenError] clause
    catches [TokenError _] and nothing else, in particular not the plain
    [ValueError] and not [TypeError]. *)
Inductive exn : Type :=
| ValueError (msg : string)
| TypeError (msg : string)
| TokenError (k : token_error)
| UnknownKeyError (key_id : string)
| DecryptError
| LibraryError (msg : string).

Definition is_TokenError (e : exn) : bool :=
  match e with TokenError _ => true | _ => false end.

Inductive result (A : Type) : Type :=
| Ok (a : A)
| Raise (e : exn).
Arguments Ok {A} a.
Arguments Raise {A} e.

#[global] Instance result_ret : MRet result := @Ok.
#[global] Instance result_bind : MBind result := fun A B f r =>
  match r with Ok a => f a | Raise e => Raise e end.

End Py.
Export Py.

(* ===================================================================== *)
(** ** passlib.totp, as far as [Totp] uses it                              *)
(* ===================================================================== *)

(** [Totp] is a thin layer over [passlib.totp.TOTP]; the windowing and the
    anti-replay comparison it relies on live in [TOTP.match].  passlib is a
    dependency of the package, not part of it: this module describes the
    library side after passlib 1.7 ([passlib/totp.py]), with the library's
    names.  Sections 4.2 to 4.4 of the design describe the same search with
    the window converted to counters first; the library's own arithmetic on
    seconds is kept here, since that is what [Totp] runs. *)

Module Passlib.

(** The primitives passlib takes from [hashlib] and [cryptography], and the
    two decisions of its key wallet that do not matter here beyond their
    contract:
    - [keyed_hmac alg key msg] : the HMAC digest;
    - [seal secret salt data] / [unseal secret salt data] : the symmetric
      cipher that protects a stored key ([None]: integrity failure);
    - [designate secrets] : the tag of the key used for new encryptions;
    - [accepts secrets issuer] : the library's own validation of the
      arguments of [TOTP.using]. *)
Class Backend : Type := {
  keyed_hmac : string → string → string → string;
  seal : string → string → string → string;
  unseal : string → string → string → option string;
  designate : gmap string string → string;
  accepts : gmap string string → string → bool;
}.

(** What the primitives are assumed to satisfy: decryption inverts
    encryption under the same key, and the designated tag is one of the
    wallet's tags. *)
Class BackendLaws (B : Backend) : Prop := {
  unseal_seal : ∀ secret salt data,
    unseal secret salt (seal secret salt data) = Some data;
  designate_present : ∀ secrets : gmap string string,
    secrets ≠ ∅ → is_Some (secrets !! designate secrets);
}.

(** Class defaults of [passlib.totp.TOTP]. *)
Definition default_digits : nat := 6.
Definition default_alg : string := "sha1".
Definition default_period : Z := 30.

(** A [TOTP] instance: one key and its token parameters. *)
Record TOTP : Type := {
  key : string;
  digits : nat;
  alg : string;
  period : Z;
  issuer : string;
}.

(** [AppWallet]: the application secrets, by tag, and the default tag. *)
Record KeyRing : Type := {
  keys : gmap string string;
  current : string;
}.

(** The configured class returned by [TOTP.using(issuer=.., secrets=..)];
    digits, alg and period stay at the class defaults. *)
Record TOTPFactory : Type := {
  wallet : KeyRing;
  factory_issuer : string;
}.

(** The document serialised by [to_json(encrypt=True)]: the encrypted key,
    the tag of the wallet secret that encrypted it, and the token
    parameters in force when it was written. *)
Record Envelope : Type := {
  key_id : string;
  salt : string;
  ciphertext : string;
  env_alg : string;
  env_digits : nat;
  env_period : Z;
  env_issuer : string;
}.

(** A stored [totp_secret]: the JSON text, by its parsed document, or a
    text that does not parse. *)
Inductive Source : Type :=
| Json (e : Envelope)
| Unparsable (text : string).

(** [TotpMatch]: what a successful [match] returns. *)
Record TotpMatch : Type := {
  totp : TOTP;
  counter : Z;
  time : Z;
  window : Z;
}.

Section WithBackend.
Context {B : Backend}.

(** [TOTP.using(issuer=issuer, secrets=secrets)] *)
Definition using_ (issuer : string) (secrets : gmap string string)
  : result TOTPFactory :=
  if accepts secrets issuer then
    Ok {| wallet := {| keys := secrets; current := designate secrets |};
          factory_issuer := issuer |}
  else Raise (LibraryError "invalid TOTP configuration").

(** *** Token generation *)

Definition _time_to_counter (self : TOTP) (time : Z) : Z :=
  time / period self.

Definition _pack_uint64 (counter : Z) : string :=
  of_bytes (SHA1.be_bytes 8 counter).

Definition _unpack_uint32 (s : string) : Z :=
  SHA1.be_word (bytes_of s).

(** [("%0*d" % (digits, value))[-digits:]] for [0 <= value]: the last
    [n] decimal digits of [value], zero-padded. *)
Fixpoint last_decimals (n : nat) (value : Z) : string :=
  match n with
  | O => ""
  | S n' => last_decimals n' (value / 10) +:+ String (chr (48 + value mod 10)) ""
  end.

(** [TOTP._generate(counter)]: RFC 4226 dynamic truncation. *)
Definition _generate (self : TOTP) (counter : Z) : string :=
  let digest := keyed_hmac (alg self) (key self) (_pack_uint64 counter) in
  let offset :=
    Z.land (ord (List.last (list_ascii_of_string digest) zero)) 0xF in
  let value :=
    Z.land (_unpack_uint32 (substring (Z.to_nat offset) 4 digest)) 0x7fffffff in
  last_decimals (digits self) value.

(** [TOTP.generate()] at clock reading [now], reduced to its [.token]. *)
Definition generate (self : TOTP) (now : Z) : result string :=
  let counter := _time_to_counter self now in
  if counter <? 0 then Raise (ValueError "timestamp must be >= 0")
  else Ok (_generate self counter).

(** *** Token normalisation *)

(** [_clean_re = re.compile(r"\s|[-=]", re.U)] on Latin-1 text. *)
Definition is_clean_char (a : ascii) : bool :=
  let c := ord a in
  ((9 <=? c) && (c <=? 13)) || ((28 <=? c) && (c <=? 32))
  || (c =? 133) || (c =? 160) || (c =? 45) || (c =? 61).

(** One character of [str.isdigit] on Latin-1 text. *)
Definition is_digit_char (a : ascii) : bool :=
  let c := ord a in
  ((48 <=? c) && (c <=? 57)) || (c =? 178) || (c =? 179) || (c =? 185).

Fixpoint clean (s : string) : string :=
  match s with
  | EmptyString => EmptyString
  | String a s' => if is_clean_char a then clean s' else String a (clean s')
  end.

Fixpoint all_digits (s : string) : bool :=
  match s with
  | EmptyString => true
  | String a s' => is_digit_char a && all_digits s'
  end.

Definition isdigit (s : string) : bool :=
  match s with EmptyString => false | _ => all_digits s end.

(** [TOTP.normalize_token(token)] for a [str] token. *)
Definition normalize_token (self : TOTP) (token : string) : result string :=
  let token := clean token in
  if negb (isdigit token) then Raise (TokenError MalformedTokenError)
  else if negb (String.length token =? digits self)%nat
       then Raise (TokenError MalformedTokenError)
       else Ok token.

(** ASCII text: every code point below 128. *)
Fixpoint is_ascii (s : string) : bool :=
  match s with
  | EmptyString => true
  | String a s' => (ord a <? 128) && is_ascii s'
  end.

Definition not_ascii_error : exn :=
  TypeError "comparing strings with non-ASCII characters is not supported".

(** [consteq] is [hmac.compare_digest]: on two [str] arguments it raises
    [TypeError] unless both are ASCII, before it compares anything. *)
Definition consteq (a b : string) : result bool :=
  if is_ascii a && is_ascii b then Ok (bool_decide (a = b))
  else Raise not_ascii_error.

(** *** Matching *)

(** The loop of [_find_match]:
    [while counter < end: if consteq(token, generate(counter)): return
    counter; counter += 1], then [raise InvalidTokenError];
    [n] is [end - counter]. *)
Fixpoint scan (self : TOTP) (token : string) (n : nat) (counter : Z) : result Z :=
  match n with
  | O => Raise (TokenError InvalidTokenError)
  | S n' =>
      match consteq token (_generate self counter) with
      | Raise e => Raise e
      | Ok true => Ok counter
      | Ok false => scan self token n' (counter + 1)
      end
  end.

(** [TOTP._find_match(token, start, end)] *)
Definition _find_match (self : TOTP) (token : string) (start end_ : Z) : result Z :=
  token ← normalize_token self token;
  let start := if start <? 0 then 0 else start in
  if end_ <=? start then Raise (TokenError InvalidTokenError)
  else scan self token (Z.to_nat (end_ - start)) start.

(** [TOTP.match(token, time=None, window=window, last_counter=last_counter)]
    with [time] the clock reading [now]:
    the search runs over the counters from
    [max(last_counter, (now - window) // period)] to
    [(now + window) // period]; a match on [last_counter] itself is a
    [UsedTokenError].  A token that passed [normalize_token] with a digit
    outside ASCII (a superscript two, say) makes the first comparison raise
    [TypeError]. *)
Definition match_ (self : TOTP) (token : string) (now : Z) (window : Z)
           (last_counter : option Z) : result TotpMatch :=
  if window <? 0 then Raise (ValueError "window must be >= 0") else
  let last_counter := default (-1) last_counter in
  let start := Z.max last_counter (_time_to_counter self (now - window)) in
  let end_ := _time_to_counter self (now + window) + 1 in
  counter ← _find_match self token start end_;
  if counter =? last_counter then Raise (TokenError UsedTokenError)
  else Ok {| totp := self; counter := counter; time := now; window := window |}.

(** *** The key envelope *)

(** Modelled from the spec: [SecretCodec.encrypt(secret, keyring)]
    (section 4.1), which the source obtains from passlib's
    [to_json(encrypt=True)] and which is not under src/.  Encrypts under
    the keyring's current key and tags the envelope with that key id and
    the parameters frozen at encryption time. *)
Definition encrypt (w : KeyRing) (salt : string) (self : TOTP) : result Envelope :=
  match keys w !! current w with
  | None => Raise (UnknownKeyError (current w))
  | Some secret =>
      Ok {| key_id := current w;
            salt := salt;
            ciphertext := seal secret salt (key self);
            env_alg := alg self;
            env_digits := digits self;
            env_period := period self;
            env_issuer := issuer self |}
  end.

(** Modelled from the spec: [SecretCodec.decrypt(envelope, keyring)]
    (section 4.1), which the source obtains from passlib's
    [from_source] and which is not under src/.  Looks up the tagged key
    id in the keyring, fails with [UnknownKeyError] if it is absent and
    with [DecryptError] on an integrity failure. *)
Definition decrypt (w : KeyRing) (e : Envelope) : result string :=
  match keys w !! key_id e with
  | None => Raise (UnknownKeyError (key_id e))
  | Some secret =>
      match unseal secret (salt e) (ciphertext e) with
      | None => Raise DecryptError
      | Some k => Ok k
      end
  end.

(** [cls.new()]: a fresh instance around [rnd], the bytes drawn from the
    system's random source. *)
Definition new (cls : TOTPFactory) (rnd : string) : TOTP :=
  {| key := rnd; digits := default_digits; alg := default_alg;
     period := default_period; issuer := factory_issuer cls |}.

(** [self.to_json(encrypt=True)], with [salt] drawn for this
    encryption. *)
Definition to_json (cls : TOTPFactory) (self : TOTP) (salt : string) : result Source :=
  e ← encrypt (wallet cls) salt self;
  Ok (Json e).

(** [cls.from_source(source)]: parse, decrypt, and run the constructor's
    checks on the parameters ([digits] in 6..10, [period >= 1]). *)
Definition from_source (cls : TOTPFactory) (source : Source) : result TOTP :=
  match source with
  | Unparsable _ => Raise (ValueError "unrecognized json data")
  | Json e =>
      k ← decrypt (wallet cls) e;
      if negb ((6 <=? env_digits e)%nat && (env_digits e <=? 10)%nat)
      then Raise (ValueError "digits must in range(6,11)")
      else if env_period e <? 1 then Raise (ValueError "period must be >= 1")
      else Ok {| key := k; digits := env_digits e; alg := env_alg e;
                 period := env_period e; issuer := env_issuer e |}
  end.

(** [cls.verify(token, source, window=.., last_counter=..)]:
    [cls.from_source(source).match(token, ...)]. *)
Definition verify (cls : TOTPFactory) (token : string) (source : Source)
           (now : Z) (window : Z) (last_counter : option Z) : result TotpMatch :=
  self ← from_source cls source;
  match_ self token now window last_counter.

End WithBackend.

End Passlib.
Export Passlib.


(* ===================================================================== *)
(** ** flask_security.totp.Totp                                            *)
(* ===================================================================== *)

Module FlaskTotp.

(** Dynamically typed arguments: the Python values that reach [Totp]'s
    methods, as far as the embedding tells them apart.  [PyPairs] is a list
    of pairs, [PyMappingProxy] a read-only mapping that is not a [dict];
    only [PyDict] passes [isinstance(_, dict)]. *)
Inductive pyval : Type :=
| PyNone
| PyInt (z : Z)
| PyStr (s : string)
| PyPairs (l : list (string * string))
| PyMappingProxy (d : gmap string string)
| PyDict (d : gmap string string)
| PyTotpMatch (m : TotpMatch).

(** An instance of [Totp]: its one attribute. *)
Record Totp : Type := { _totp : TOTPFactory }.

Section Methods.
Context {B : Backend}.
Context {User : Type}.

(** Calls of the two overridable methods, with their arguments, in the order
    they happen. *)
Inductive call : Type :=
| GetLastCounter (user : User)
| SetLastCounter (user : User) (tmatch : pyval).

Definition is_set (c : call) : bool :=
  match c with SetLastCounter _ _ => true | GetLastCounter _ => false end.

(** The two methods a subclass overrides, over the state [St] of whatever
    cache the subclass keeps.  [get_last_counter] reads, [set_last_counter]
    writes. *)
Class LastCounterMethods (St : Type) : Type := {
  get_last_counter : User → St → option Z;
  set_last_counter : User → TotpMatch → St → St;
}.

(** [Totp.get_last_counter] and [Totp.set_last_counter] as the class defines
    them (lines 91-105): [return None] and [pass]. *)
Definition base_methods (St : Type) : LastCounterMethods St :=
  {| get_last_counter := fun _ _ => None;
     set_last_counter := fun _ _ st => st |}.

(** A subclass "implemented to store and return what was written": the
    counter of the match handed to [set_last_counter] is what
    [get_last_counter] returns for that user, and other users are not
    touched. *)
Class StoresLastCounter {St : Type} (methods : LastCounterMethods St) : Prop := {
  get_set_same : ∀ user tmatch st,
    get_last_counter user (set_last_counter user tmatch st) = Some (counter tmatch);
  get_set_other : ∀ user user' tmatch st,
    user ≠ user' →
    get_last_counter user' (set_last_counter user tmatch st) = get_last_counter user' st;
}.

(** *** Methods run in a state, exception and call-log monad *)

Definition M (St A : Type) : Type := St → result A * St * list call.

#[global] Instance M_ret {St} : MRet (M St) := fun A a st => (Ok a, st, []).

#[global] Instance M_bind {St} : MBind (M St) := fun A B f m st =>
  match m st with
  | (Ok a, st', log) => let '(r, st'', log') := f a st' in (r, st'', log ++ log')
  | (Raise e, st', log) => (Raise e, st', log)
  end.

(** A library call: no state, no method call. *)
Definition lift {St A} (r : result A) : M St A := fun st => (r, st, []).

(** [try: body / except E: handler], [catches] deciding membership in [E].
    Whatever [body] did before raising stays done. *)
Definition try_except {St A} (body : M St A) (catches : exn → bool)
           (handler : M St A) : M St A := fun st =>
  match body st with
  | (Raise e, st', log) =>
      if catches e
      then let '(r, st'', log') := handler st' in (r, st'', log ++ log')
      else (Raise e, st', log)
  | done => done
  end.

Definition call_get_last_counter {St} {methods : LastCounterMethods St} (user : User)
  : M St (option Z) :=
  fun st => (Ok (get_last_counter user st), st, [GetLastCounter user]).

Definition call_set_last_counter {St} {methods : LastCounterMethods St} (user : User)
           (tmatch : TotpMatch) : M St unit :=
  fun st => (Ok tt, set_last_counter user tmatch st,
             [SetLastCounter user (PyTotpMatch tmatch)]).

(** *** The methods of the class *)

(** [Totp.__init__(self, secrets, issuer)], lines 28-35.  The second
    disjunct [len(secrets) < 1] is only evaluated for a dict. *)
Definition __init__ (secrets : pyval) (issuer : string) : result Totp :=
  match secrets with
  | PyDict d =>
      if (size d <? 1)%nat
      then Raise (ValueError "secrets needs to be a dict with at least one entry")
      else cls ← using_ issuer d; Ok {| _totp := cls |}
  | _ => Raise (ValueError "secrets needs to be a dict with at least one entry")
  end.

(** [Totp.generate_totp_password(self, totp_secret)], lines 37-41, at clock
    reading [now]. *)
Definition generate_totp_password (self : Totp) (totp_secret : Source) (now : Z)
  : result string :=
  tp ← from_source (_totp self) totp_secret;
  generate tp now.

(** [Totp.generate_totp_secret(self)], lines 43-50; [rnd] and [salt] are the
    random bytes drawn for the key and for its encryption. *)
Definition generate_totp_secret (self : Totp) (rnd salt : string) : result Source :=
  to_json (_totp self) (new (_totp self) rnd) salt.

(** [Totp.verify_totp(self, token, totp_secret, user, window=0)], lines
    52-79, at clock reading [now]; [window = None] is the omitted
    argument. *)
Definition verify_totp {St} {methods : LastCounterMethods St} (self : Totp) (token : string)
           (totp_secret : Source) (user : User) (window : option Z) (now : Z)
  : M St bool :=
  let window := default 0 window in
  try_except
    (last_counter ← call_get_last_counter user;
     tmatch ← lift (verify (_totp self) token totp_secret now window last_counter);
     call_set_last_counter user tmatch;;
     mret true)
    is_TokenError
    (mret false).

(** *** Runs of several requests *)

Record request : Type := {
  req_token : string;
  req_secret : Source;
  req_user : User;
  req_window : option Z;
  req_now : Z;
}.

Definition serve {St} {methods : LastCounterMethods St} (self : Totp) (rq : request)
  : M St bool :=
  verify_totp self (req_token rq) (req_secret rq) (req_user rq) (req_window rq)
              (req_now rq).

(** The state after serving [rqs] one after the other. *)
Definition serve_all {St} {methods : LastCounterMethods St} (self : Totp)
           (rqs : list request)
           (st : St) : St :=
  fold_left (fun st rq => (serve self rq st).1.2) rqs st.

End Methods.

Arguments call User : clear implicits.
Arguments request User : clear implicits.
Arguments LastCounterMethods User St : clear implicits.
Arguments base_methods User St : clear implicits.

(** The subclass the passlib tutorial suggests: a cache from user to the
    counter of the last match. *)
Definition cache_methods {User} `{Countable User}
  : LastCounterMethods User (gmap User Z) :=
  {| get_last_counter := fun user (st : gmap User Z) => st !! user;
     set_last_counter := fun user tmatch (st : gmap User Z) => <[user := counter tmatch]> st |}.

End FlaskTotp.
Export FlaskTotp.

(* ===================================================================== *)
(** ** A concrete backend and the RFC 4226 test secret                     *)
(* ===================================================================== *)

Module Rfc.

Definition xor_ascii (a b : ascii) : ascii :=
  let '(Ascii a0 a1 a2 a3 a4 a5 a6 a7) := a in
  let '(Ascii b0 b1 b2 b3 b4 b5 b6 b7) := b in
  Ascii (xorb a0 b0) (xorb a1 b1) (xorb a2 b2) (xorb a3 b3)
        (xorb a4 b4) (xorb a5 b5) (xorb a6 b6) (xorb a7 b7).

Definition hmac_sha1 (key msg : string) : string :=
  of_bytes (SHA1.hmac (bytes_of key) (bytes_of msg)).

(** The key stream: HMAC-SHA1 in counter mode, 20 bytes per block, block
    [j] being the digest of the salt followed by [j] on four bytes. *)
Definition keystream_block (secret salt : string) (j : nat) : list ascii :=
  list_ascii_of_string
    (hmac_sha1 secret (salt +:+ of_bytes (SHA1.be_bytes 4 (Z.of_nat j)))).

(** At least [n] bytes of key stream. *)
Definition keystream (secret salt : string) (n : nat) : list ascii :=
  flat_map (keystream_block secret salt) (seq 0 (S (n / 20))).

Fixpoint xor_with (ks : list ascii) (data : string) {struct data} : string :=
  match data with
  | EmptyString => EmptyString
  | String a s =>
      match ks with
      | [] => data
      | k :: ks' => String (xor_ascii a k) (xor_with ks' s)
      end
  end.

(** Encryption and decryption are the same operation. *)
Definition ctr_crypt (secret salt data : string) : string :=
  xor_with (keystream secret salt (String.length data)) data.

Definition greater (a b : string) : string := if String.ltb a b then b else a.

Definition max_tag (tags : list string) : string :=
  match tags with
  | [] => ""
  | t :: ts => fold_left greater ts t
  end.

(** HMAC-SHA1 for tokens (the only digest the runs below use), the key
    stream above for the envelope, the greatest tag as default tag, and a
    wallet check that refuses empty secrets. *)
Definition backend : Backend := {|
  keyed_hmac alg key msg :=
    if String.eqb alg "sha1" then hmac_sha1 key msg else "";
  seal := ctr_crypt;
  unseal secret salt data := Some (ctr_crypt secret salt data);
  designate secrets := max_tag (map fst (map_to_list secrets));
  accepts secrets issuer :=
    forallb (fun kv => negb (String.eqb (snd kv) "")) (map_to_list secrets);
|}.

(** The secret of RFC 4226, appendix D. *)
Definition rfc_key : string := "12345678901234567890".

Definition rfc_totp : TOTP :=
  {| key := rfc_key; digits := 6; alg := "sha1"; period := 30; issuer := "flask" |}.

Definition app_secrets : gmap string string :=
  {[ "1" := "first application secret"; "2" := "second application secret" ]}.

(** [Totp(app_secrets, "flask")] *)
Definition rfc_self : Totp :=
  {| _totp := {| wallet := {| keys := app_secrets; current := "2" |};
                 factory_issuer := "flask" |} |}.

(** The stored secret of a user enrolled with the RFC key. *)
Definition rfc_envelope : Envelope :=
  {| key_id := "2";
     salt := "salt";
     ciphertext := ctr_crypt "second application secret" "salt" rfc_key;
     env_alg := "sha1"; env_digits := 6; env_period := 30; env_issuer := "flask" |}.

Definition rfc_source : Source := Json rfc_envelope.

(** An envelope tagged with a key id that was rotated out. *)
Definition stale_envelope : Envelope :=
  {| key_id := "0";
     salt := "salt";
     ciphertext := ctr_crypt "retired application secret" "salt" rfc_key;
     env_alg := "sha1"; env_digits := 6; env_period := 30; env_issuer := "flask" |}.

Definition alice : string := "alice".

(** [verify_totp] with the cache subclass and with the base class. *)
Definition cached_verify_totp :=
  verify_totp (B := backend) (methods := cache_methods (User := string)).

Definition base_verify_totp :=
  verify_totp (B := backend) (methods := base_methods string unit).

(** The token of counter 1, submitted at second 45 with the default window
    to an empty cache. *)
Definition first_run : result bool * gmap string Z * list (call string) :=
  cached_verify_totp rfc_self "287082" rfc_source alice None 45 ∅.

End Rfc.


(* ===================================================================== *)
(** ** The provisioning URI and further sample data                        *)
(* ===================================================================== *)

Section Provisioning.
Context {B : Backend}.

(** [TOTP.to_uri(label)]: the renderer of the [otpauth://] URI belongs to
    passlib; it is taken as it comes. *)
Variable to_uri : TOTP → string → result string.

(** [Totp.get_totp_uri(self, username, totp_secret)], lines 81-89. *)
Definition get_totp_uri (self : Totp) (username : string) (totp_secret : Source)
  : result string :=
  tp ← from_source (_totp self) totp_secret;
  to_uri tp username.

End Provisioning.

(** Text made of the ten ASCII digits only. *)
Definition is_decimal_char (a : ascii) : bool :=
  (48 <=? ord a) && (ord a <=? 57).

Fixpoint decimal_string (s : string) : bool :=
  match s with
  | EmptyString => true
  | String a s' => is_decimal_char a && decimal_string s'
  end.

Module Samples.

(** A stand-in renderer for the runs: issuer and label, no parameters. *)
Definition plain_uri (tp : TOTP) (label : string) : result string :=
  Ok ("otpauth://totp/" +:+ issuer tp +:+ ":" +:+ label).

(** The keyring of [Rfc.app_secrets] after a rotation that adds key "3",
    and a keyring from which the older keys are gone. *)
Definition rotated_secrets : gmap string string :=
  <[ "3" := "third application secret" ]> Rfc.app_secrets.

Definition rotated_self : Totp :=
  {| _totp := {| wallet := {| keys := rotated_secrets; current := "3" |};
                 factory_issuer := "flask" |} |}.

Definition retired_secrets : gmap string string :=
  {[ "3" := "third application secret" ]}.

Definition retired_self : Totp :=
  {| _totp := {| wallet := {| keys := retired_secrets; current := "3" |};
                 factory_issuer := "flask" |} |}.

Definition bob : string := "bob".

(** Six characters that [str.isdigit] accepts, the last one being the
    superscript two (code point 178), which is not ASCII. *)
Definition superscript_token : string :=
  "28708" +:+ String (chr 178) EmptyString.

End Samples.

(* ===================================================================== *)
(** ** Vocabulary of the statements                                        *)
(* ===================================================================== *)

(** The counters [TOTP.match] looks at, both ends included: from
    [search_first] to [search_last]. *)
Definition search_first (tp : TOTP) (now window : Z) (last_counter : option Z) : Z :=
  Z.max 0 (Z.max (default (-1) last_counter) ((now - window) / period tp)).

Definition search_last (tp : TOTP) (now window : Z) : Z :=
  (now + window) / period tp.

(** The counter of "now". *)
Definition center_counter (tp : TOTP) (now : Z) : Z := now / period tp.

(** The error of line 34. *)
Definition config_error : exn :=
  ValueError "secrets needs to be a dict with at least one entry".

(** The result, the final state and the calls of a run. *)
Definition returned {St User A} (run : result A * St * list (call User)) : result A :=
  run.1.1.
Definition state_after {St User A} (run : result A * St * list (call User)) : St :=
  run.1.2.
Definition calls_of {St User A} (run : result A * St * list (call User))
  : list (call User) := run.2.

(** The writes among the calls. *)
Definition writes {User} (log : list (call User)) : list (call User) :=
  List.filter is_set log.

(* ===================================================================== *)
(** ** The library side: tokens and the search                             *)
(* ===================================================================== *)

Section LibraryFacts.
Context {B : Backend}.

Lemma bind_Ok {A C} (r : result A) (f : A → result C) (c : C) :
  (a ← r; f a) = Ok c → ∃ a, r = Ok a ∧ f a = Ok c.
Proof. destruct r as [a|e]; simpl; [eauto | discriminate]. Qed.

Lemma bind_Raise {A C} (r : result A) (f : A → result C) (e : exn) :
  (a ← r; f a) = Raise e → r = Raise e ∨ ∃ a, r = Ok a ∧ f a = Raise e.
Proof. destruct r as [a|e']; simpl; [eauto | intros [= ->]; auto]. Qed.

(** *** Generated tokens are well-formed *)

Lemma digit_char_ok (d : Z) :
  0 ≤ d < 10 →
  is_digit_char (chr (48 + d)) = true ∧ is_clean_char (chr (48 + d)) = false.
Proof.
  intros Hd.
  assert (d = 0 ∨ d = 1 ∨ d = 2 ∨ d = 3 ∨ d = 4 ∨ d = 5 ∨ d = 6 ∨ d = 7
          ∨ d = 8 ∨ d = 9) as Hcases by lia.
  repeat (destruct Hcases as [-> | Hcases]; [split; reflexivity |]).
  subst d; split; reflexivity.
Qed.

Lemma clean_app (s t : string) : clean (s +:+ t) = clean s +:+ clean t.
Proof.
  induction s as [|a s IH]; simpl; [reflexivity |].
  destruct (is_clean_char a); simpl; by rewrite IH.
Qed.

Lemma all_digits_app (s t : string) :
  all_digits (s +:+ t) = all_digits s && all_digits t.
Proof.
  induction s as [|a s IH]; simpl; [reflexivity |].
  by rewrite IH, andb_assoc.
Qed.

Lemma length_app_string (s t : string) :
  String.length (s +:+ t) = (String.length s + String.length t)%nat.
Proof. induction s as [|a s IH]; simpl; [reflexivity | by rewrite IH]. Qed.

Lemma last_decimals_wf (n : nat) (value : Z) :
  clean (last_decimals n value) = last_decimals n value
  ∧ all_digits (last_decimals n value) = true
  ∧ String.length (last_decimals n value) = n.
Proof.
  revert value; induction n as [|n IH]; intros value; simpl; [done |].
  destruct (IH (value / 10)) as (Hc & Hd & Hl).
  destruct (digit_char_ok (value mod 10)) as [Hdig Hcl].
  { apply Z.mod_pos_bound; lia. }
  rewrite clean_app, all_digits_app, length_app_string, Hc, Hd, Hl.
  simpl. rewrite Hcl, Hdig. simpl. repeat split; lia.
Qed.

Lemma isdigit_nonempty (s : string) :
  all_digits s = true → String.length s ≠ 0%nat → isdigit s = true.
Proof. destruct s; simpl; [congruence | auto]. Qed.

(** A token that [_generate] produced normalises to itself. *)
Lemma normalize_generated (self : TOTP) (c : Z) :
  digits self ≠ 0%nat →
  normalize_token self (_generate self c) = Ok (_generate self c).
Proof.
  intros Hd. unfold normalize_token, _generate.
  set (v := Z.land _ _).
  destruct (last_decimals_wf (digits self) v) as (Hc & Hdig & Hl).
  rewrite Hc, (isdigit_nonempty _ Hdig) by (rewrite Hl; exact Hd).
  simpl. rewrite Hl, Nat.eqb_refl. reflexivity.
Qed.

Lemma normalize_token_error (self : TOTP) (token : string) (e : exn) :
  normalize_token self token = Raise e → e = TokenError MalformedTokenError.
Proof.
  unfold normalize_token.
  destruct (negb _); [by intros [= <-] |].
  destruct (negb _); [by intros [= <-] | discriminate].
Qed.

(** *** The scanning loop *)

Lemma is_ascii_app (s t : string) : is_ascii (s +:+ t) = is_ascii s && is_ascii t.
Proof.
  induction s as [|a s IH]; simpl; [reflexivity |].
  by rewrite IH, andb_assoc.
Qed.

Lemma digit_char_ascii (d : Z) : 0 ≤ d < 10 → (ord (chr (48 + d)) <? 128) = true.
Proof.
  intros Hd.
  assert (d = 0 ∨ d = 1 ∨ d = 2 ∨ d = 3 ∨ d = 4 ∨ d = 5 ∨ d = 6 ∨ d = 7
          ∨ d = 8 ∨ d = 9) as Hcases by lia.
  repeat (destruct Hcases as [-> | Hcases]; [reflexivity |]).
  by subst d.
Qed.

Lemma last_decimals_ascii (n : nat) (value : Z) :
  is_ascii (last_decimals n value) = true.
Proof.
  revert value; induction n as [|n IH]; intros value; simpl; [reflexivity |].
  rewrite is_ascii_app, IH. simpl.
  rewrite digit_char_ascii; [reflexivity |].
  apply Z.mod_pos_bound. lia.
Qed.

(** Generated tokens are ASCII. *)
Lemma generate_ascii (self : TOTP) (c : Z) : is_ascii (_generate self c) = true.
Proof. unfold _generate. apply last_decimals_ascii. Qed.

(** A token that normalises to a generated token is ASCII once cleaned. *)
Lemma normalized_generated_ascii (self : TOTP) (token : string) (c : Z) :
  normalize_token self token = Ok (_generate self c) → is_ascii (clean token) = true.
Proof.
  unfold normalize_token.
  destruct (negb _); [discriminate |]. destruct (negb _); [discriminate |].
  intros [= ->]. apply generate_ascii.
Qed.

Lemma normalize_token_Ok (self : TOTP) (token tok : string) :
  normalize_token self token = Ok tok → tok = clean token.
Proof.
  unfold normalize_token.
  destruct (negb _); [discriminate |]. destruct (negb _); [discriminate |].
  by intros [= <-].
Qed.

(** On an ASCII token [consteq] against a generated token is equality. *)
Lemma consteq_ascii (self : TOTP) (token : string) (c : Z) :
  is_ascii token = true →
  consteq token (_generate self c) = Ok (bool_decide (token = _generate self c)).
Proof. intros Ha. unfold consteq. by rewrite Ha, generate_ascii. Qed.

Lemma consteq_not_ascii (token other : string) :
  is_ascii token = false → consteq token other = Raise not_ascii_error.
Proof. intros Ha. unfold consteq. by rewrite Ha. Qed.

(** On an ASCII token [scan] either finds the first matching counter of
    its range or runs through all of it. *)
Lemma scan_cases (self : TOTP) (token : string) (n : nat) (c : Z) :
  is_ascii token = true →
  (scan self token n c = Raise (TokenError InvalidTokenError)
   ∧ ∀ i, c ≤ i < c + Z.of_nat n → token ≠ _generate self i)
  ∨ (∃ c', scan self token n c = Ok c'
          ∧ c ≤ c' < c + Z.of_nat n
          ∧ token = _generate self c'
          ∧ ∀ i, c ≤ i < c' → token ≠ _generate self i).
Proof.
  intros Ha. revert c; induction n as [|n IH]; intros c; simpl.
  - left; split; [reflexivity | intros i Hi; lia].
  - rewrite (consteq_ascii self token c Ha).
    destruct (bool_decide (token = _generate self c)) eqn:Heq.
    + right. exists c. apply bool_decide_eq_true in Heq.
      repeat split; [lia | lia | exact Heq | intros i Hi; lia].
    + apply bool_decide_eq_false in Heq.
      destruct (IH (c + 1)) as [[Hr Hno] | (c' & Hr & Hin & Hm & Hno)].
      * left; split; [exact Hr |].
        intros i Hi. destruct (decide (i = c)) as [-> | Hne]; [exact Heq |].
        apply Hno; lia.
      * right. exists c'. repeat split; [exact Hr | lia | lia | exact Hm |].
        intros i Hi. destruct (decide (i = c)) as [-> | Hne]; [exact Heq |].
        apply Hno; lia.
Qed.

(** On a token that is not ASCII the first comparison raises. *)
Lemma scan_not_ascii (self : TOTP) (token : string) (n : nat) (c : Z) :
  is_ascii token = false →
  scan self token n c =
  match n with O => Raise (TokenError InvalidTokenError) | S _ => Raise not_ascii_error end.
Proof.
  intros Ha. destruct n as [|n]; simpl; [reflexivity |].
  by rewrite (consteq_not_ascii token _ Ha).
Qed.

(** [_find_match] on a well-formed ASCII token: the first match between
    [max 0 start] and [end_ - 1], or [InvalidTokenError]. *)
Lemma find_match_cases (self : TOTP) (token tok : string) (start end_ : Z) :
  normalize_token self token = Ok tok →
  is_ascii tok = true →
  (_find_match self token start end_ = Raise (TokenError InvalidTokenError)
   ∧ ∀ i, Z.max 0 start ≤ i < end_ → tok ≠ _generate self i)
  ∨ (∃ c, _find_match self token start end_ = Ok c
         ∧ Z.max 0 start ≤ c < end_
         ∧ tok = _generate self c
         ∧ ∀ i, Z.max 0 start ≤ i < c → tok ≠ _generate self i).
Proof.
  intros Hnorm Ha. unfold _find_match. rewrite Hnorm. simpl.
  assert ((if start <? 0 then 0 else start) = Z.max 0 start) as ->.
  { destruct (Z.ltb_spec start 0); lia. }
  destruct (Z.leb_spec end_ (Z.max 0 start)) as [Hle | Hlt].
  - left; split; [reflexivity | intros i Hi; lia].
  - pose proof (scan_cases self tok (Z.to_nat (end_ - Z.max 0 start)) (Z.max 0 start) Ha)
      as Hscan.
    rewrite Z2Nat.id in Hscan by lia.
    replace (Z.max 0 start + (end_ - Z.max 0 start)) with end_ in Hscan by lia.
    exact Hscan.
Qed.

(** [_find_match] on a well-formed token that is not ASCII:
    [InvalidTokenError] on an empty range, [TypeError] otherwise. *)
Lemma find_match_not_ascii (self : TOTP) (token tok : string) (start end_ : Z) :
  normalize_token self token = Ok tok →
  is_ascii tok = false →
  _find_match self token start end_ =
  if end_ <=? Z.max 0 start then Raise (TokenError InvalidTokenError)
  else Raise not_ascii_error.
Proof.
  intros Hnorm Ha. unfold _find_match. rewrite Hnorm. simpl.
  assert ((if start <? 0 then 0 else start) = Z.max 0 start) as ->.
  { destruct (Z.ltb_spec start 0); lia. }
  destruct (Z.leb_spec end_ (Z.max 0 start)) as [Hle | Hlt]; [reflexivity |].
  rewrite (scan_not_ascii self tok _ _ Ha).
  destruct (Z.to_nat (end_ - Z.max 0 start)) eqn:Hn; [lia | reflexivity].
Qed.

(** [TOTP.match] on a well-formed ASCII token and a non-negative window: no
    counter of the search range matches and the call raises
    [InvalidTokenError], or the first matching counter [c] decides: [c] is
    [last_counter] and the call raises [UsedTokenError], or [c] is returned. *)
Lemma match_cases (self : TOTP) (token tok : string) (now window : Z)
      (last_counter : option Z) :
  0 ≤ window →
  normalize_token self token = Ok tok →
  is_ascii tok = true →
  let first := search_first self now window last_counter in
  let last := search_last self now window in
  (match_ self token now window last_counter = Raise (TokenError InvalidTokenError)
   ∧ ∀ i, first ≤ i ≤ last → tok ≠ _generate self i)
  ∨ (∃ c, first ≤ c ≤ last
         ∧ tok = _generate self c
         ∧ (∀ i, first ≤ i < c → tok ≠ _generate self i)
         ∧ match_ self token now window last_counter =
             if c =? default (-1) last_counter
             then Raise (TokenError UsedTokenError)
             else Ok {| totp := self; counter := c; time := now; window := window |}).
Proof.
  intros Hw Hnorm Ha first last. unfold match_.
  destruct (Z.ltb_spec window 0) as [? | _]; [lia |].
  unfold _time_to_counter.
  destruct (find_match_cases self token tok
              (Z.max (default (-1) last_counter) ((now - window) / period self))
              ((now + window) / period self + 1) Hnorm Ha)
    as [[Hr Hno] | (c & Hr & Hin & Hm & Hno)]; rewrite Hr; simpl.
  - left; split; [reflexivity |].
    intros i Hi. apply Hno. unfold first, last, search_first, search_last in Hi. lia.
  - right. exists c. unfold first, last, search_first, search_last.
    repeat split; [lia | lia | exact Hm |].
    intros i Hi. apply Hno. lia.
Qed.

(** [TOTP.match] on a well-formed token that is not ASCII never returns:
    [InvalidTokenError] when the search range is empty, [TypeError] when it
    is not. *)
Lemma match_not_ascii (self : TOTP) (token tok : string) (now window : Z)
      (last_counter : option Z) :
  0 ≤ window →
  normalize_token self token = Ok tok →
  is_ascii tok = false →
  match_ self token now window last_counter =
  if search_last self now window <? search_first self now window last_counter
  then Raise (TokenError InvalidTokenError)
  else Raise not_ascii_error.
Proof.
  intros Hw Hnorm Ha. unfold match_.
  destruct (Z.ltb_spec window 0) as [? | _]; [lia |].
  unfold _time_to_counter.
  rewrite (find_match_not_ascii self token tok _ _ Hnorm Ha).
  unfold search_first, search_last.
  destruct (Z.leb_spec ((now + window) / period self + 1)
              (Z.max 0 (Z.max (default (-1) last_counter) ((now - window) / period self))));
    destruct (Z.ltb_spec ((now + window) / period self)
                (Z.max 0 (Z.max (default (-1) last_counter)
                            ((now - window) / period self))));
    try lia; reflexivity.
Qed.

(** What a successful [match] tells. *)
Lemma match_Ok (self : TOTP) (token : string) (now window : Z)
      (last_counter : option Z) (m : TotpMatch) :
  match_ self token now window last_counter = Ok m →
  0 ≤ window
  ∧ m = {| totp := self; counter := counter m; time := now; window := window |}
  ∧ normalize_token self token = Ok (_generate self (counter m))
  ∧ search_first self now window last_counter ≤ counter m ≤ search_last self now window
  ∧ default (-1) last_counter < counter m.
Proof.
  intros Hm.
  assert (0 ≤ window) as Hw.
  { unfold match_ in Hm. destruct (Z.ltb_spec window 0); [discriminate | lia]. }
  destruct (normalize_token self token) as [tok|e] eqn:Hnorm.
  2:{ unfold match_, _find_match in Hm. rewrite Hnorm in Hm.
      destruct (window <? 0); discriminate. }
  destruct (is_ascii tok) eqn:Ha.
  2:{ rewrite (match_not_ascii self token tok now window last_counter Hw Hnorm Ha) in Hm.
      destruct (_ <? _); discriminate. }
  destruct (match_cases self token tok now window last_counter Hw Hnorm Ha)
    as [[Hr _] | (c & Hin & Htok & _ & Hr)]; [congruence |].
  rewrite Hr in Hm.
  destruct (Z.eqb_spec c (default (-1) last_counter)) as [? | Hne]; [discriminate |].
  injection Hm as <-. simpl.
  repeat split; [exact Hw | by rewrite Htok | lia | lia |].
  unfold search_first in Hin. lia.
Qed.

(** The exceptions of [match]: a negative window, a [TokenError], or the
    [TypeError] of a token that is not ASCII. *)
Lemma match_Raise (self : TOTP) (token : string) (now window : Z)
      (last_counter : option Z) (e : exn) :
  match_ self token now window last_counter = Raise e →
  (window < 0 ∧ e = ValueError "window must be >= 0")
  ∨ (∃ k, e = TokenError k)
  ∨ (is_ascii (clean token) = false ∧ e = not_ascii_error).
Proof.
  intros Hr.
  destruct (Z.ltb_spec window 0) as [Hneg | Hw].
  { left. unfold match_ in Hr. destruct (Z.ltb_spec window 0); [| lia].
    by injection Hr as <-. }
  right.
  destruct (normalize_token self token) as [tok|e'] eqn:Hnorm.
  - pose proof (normalize_token_Ok _ _ _ Hnorm) as ->.
    destruct (is_ascii (clean token)) eqn:Ha.
    + left.
      destruct (match_cases self token _ now window last_counter Hw Hnorm Ha)
        as [[Hr' _] | (c & _ & _ & _ & Hr')]; rewrite Hr' in Hr.
      * injection Hr as <-. eauto.
      * destruct (c =? _); [injection Hr as <-; eauto | discriminate].
    + rewrite (match_not_ascii self token _ now window last_counter Hw Hnorm Ha) in Hr.
      destruct (_ <? _); injection Hr as <-; eauto.
  - left. unfold match_, _find_match in Hr. rewrite Hnorm in Hr.
    destruct (Z.ltb_spec window 0); [lia |]. simpl in Hr.
    injection Hr as <-. apply normalize_token_error in Hnorm. eauto.
Qed.

(** [from_source] never raises a [TokenError]. *)
Lemma from_source_Raise (cls : TOTPFactory) (source : Source) (e : exn) :
  from_source cls source = Raise e → is_TokenError e = false.
Proof.
  destruct source as [env | text]; simpl; [| by intros [= <-]].
  unfold decrypt.
  destruct (keys (wallet cls) !! key_id env) as [secret|]; [| by intros [= <-]].
  destruct (unseal secret (salt env) (ciphertext env)); simpl; [| by intros [= <-]].
  destruct (negb _); [by intros [= <-] |].
  destruct (env_period env <? 1); [by intros [= <-] | discriminate].
Qed.

(** The parameters of a decoded secret passed the constructor's checks. *)
Lemma from_source_Ok (cls : TOTPFactory) (source : Source) (tp : TOTP) :
  from_source cls source = Ok tp → (6 ≤ digits tp ≤ 10)%nat ∧ 1 ≤ period tp.
Proof.
  destruct source as [env | text]; [| discriminate].
  unfold from_source, mbind, result_bind.
  destruct (decrypt (wallet cls) env) as [k|e]; [| discriminate].
  destruct (Nat.leb_spec 6 (env_digits env)); [| discriminate].
  destruct (Nat.leb_spec (env_digits env) 10); [| discriminate].
  destruct (Z.ltb_spec (env_period env) 1); [discriminate |].
  intros [= <-]. simpl. lia.
Qed.

End LibraryFacts.

(* ===================================================================== *)
(** ** [Totp.verify_totp]: one call                                        *)
(* ===================================================================== *)

Section VerifyFacts.
Context {B : Backend} {User : Type} {St : Type} (methods : LastCounterMethods User St).
Implicit Types (self : Totp) (token : string) (secret : Source) (user : User)
         (window : option Z) (now : Z) (st : St).

(** The three ways a call of [verify_totp] ends, by what the library's
    [verify] did. *)
Lemma verify_totp_unfold self token secret user window now st :
  verify_totp self token secret user window now st =
  match verify (_totp self) token secret now (default 0 window)
               (get_last_counter user st) with
  | Ok m =>
      (Ok true, set_last_counter user m st,
       [GetLastCounter user; SetLastCounter user (PyTotpMatch m)])
  | Raise e =>
      if is_TokenError e then (Ok false, st, [GetLastCounter user])
      else (Raise e, st, [GetLastCounter user])
  end.
Proof.
  unfold verify_totp, try_except, mbind, M_bind, call_get_last_counter, lift,
    call_set_last_counter, mret, M_ret.
  destruct (verify _ _ _ _ _ _) as [m|e]; [reflexivity |].
  destruct (is_TokenError e); reflexivity.
Qed.

Lemma verify_totp_true self token secret user window now st :
  returned (verify_totp self token secret user window now st) = Ok true →
  ∃ m, verify (_totp self) token secret now (default 0 window)
              (get_last_counter user st) = Ok m.
Proof.
  rewrite verify_totp_unfold.
  destruct (verify _ _ _ _ _ _) as [m|e]; [eauto |].
  destruct (is_TokenError e); discriminate.
Qed.

Lemma verify_totp_raise self token secret user window now st (e : exn) :
  verify (_totp self) token secret now (default 0 window)
         (get_last_counter user st) = Raise e →
  let run := verify_totp self token secret user window now st in
  returned run ≠ Ok true
  ∧ state_after run = st
  ∧ (is_TokenError e = true → returned run = Ok false).
Proof.
  intros Hv run. subst run. rewrite verify_totp_unfold, Hv.
  destruct (is_TokenError e); unfold returned, state_after; simpl;
    repeat split; try done.
Qed.

(** [verify] succeeds exactly when the secret decodes and [match] succeeds. *)
Lemma verify_Ok (cls : TOTPFactory) token secret now (w : Z) (last : option Z)
      (m : TotpMatch) :
  verify cls token secret now w last = Ok m ↔
  ∃ tp, from_source cls secret = Ok tp ∧ match_ tp token now w last = Ok m.
Proof.
  unfold verify. split.
  - intros Hv. apply bind_Ok in Hv. exact Hv.
  - intros (tp & -> & Hm). exact Hm.
Qed.

(** What an accepting call did: the secret decoded, the library returned a
    match on a counter that generates the submitted token, and that match
    went, after the one read, to [set_last_counter]. *)
Lemma verify_totp_accepted self token secret user window now st :
  let run := verify_totp self token secret user window now st in
  returned run = Ok true →
  ∃ (m : TotpMatch) (tp : TOTP),
    from_source (_totp self) secret = Ok tp
    ∧ totp m = tp
    ∧ normalize_token tp token = Ok (_generate tp (counter m))
    ∧ calls_of run = [GetLastCounter user; SetLastCounter user (PyTotpMatch m)]
    ∧ state_after run = set_last_counter user m st.
Proof.
  intros run Htrue. subst run.
  destruct (verify_totp_true _ _ _ _ _ _ _ Htrue) as [m Hv].
  rewrite verify_totp_unfold, Hv. unfold calls_of, state_after. simpl.
  apply verify_Ok in Hv as (tp & Hsrc & Hm).
  apply match_Ok in Hm as (_ & Hrec & Hnorm & _).
  exists m, tp. repeat split; try done.
  by rewrite Hrec.
Qed.

(** A well-formed token outside ASCII is never accepted: the library
    raises, and what it raises is not caught unless the search range is
    empty. *)
Lemma not_ascii_token_raises (cls : TOTPFactory) token secret now (w : Z)
      (last : option Z) (tp : TOTP) (tok : string) :
  from_source cls secret = Ok tp →
  0 ≤ w →
  normalize_token tp token = Ok tok →
  is_ascii tok = false →
  verify cls token secret now w last =
  if search_last tp now w <? search_first tp now w last
  then Raise (TokenError InvalidTokenError)
  else Raise not_ascii_error.
Proof.
  intros Hsrc Hw Hnorm Ha. unfold verify. rewrite Hsrc. simpl.
  exact (match_not_ascii tp token tok now w last Hw Hnorm Ha).
Qed.

(** A token all of whose matching counters in the time window are at or
    before the stored counter is never accepted: the library raises. *)
Lemma stale_token_not_accepted (cls : TOTPFactory) token secret now (w n : Z) (tp : TOTP) :
  from_source cls secret = Ok tp →
  0 ≤ w →
  (∀ i, n < i → (now - w) / period tp ≤ i ≤ (now + w) / period tp →
        normalize_token tp token ≠ Ok (_generate tp i)) →
  ∃ e, verify cls token secret now w (Some n) = Raise e
       ∧ (is_ascii (clean token) = true → is_TokenError e = true).
Proof.
  intros Hsrc Hw Hstale.
  destruct (normalize_token tp token) as [tok|e] eqn:Hnorm.
  - pose proof (normalize_token_Ok _ _ _ Hnorm) as ->.
    destruct (is_ascii (clean token)) eqn:Ha.
    + unfold verify. rewrite Hsrc. simpl.
      destruct (match_cases tp token _ now w (Some n) Hw Hnorm Ha)
        as [[Hr _] | (c & Hin & Htok & _ & Hr)]; rewrite Hr; [eauto |].
      unfold search_first, search_last in Hin. simpl in Hin |- *.
      destruct (Z.eqb_spec c n) as [_ | Hne]; [eauto |].
      exfalso. apply (Hstale c); [lia | lia | by rewrite <- Htok].
    + rewrite (not_ascii_token_raises cls token secret now w (Some n) tp _
                 Hsrc Hw Hnorm Ha).
      destruct (_ <? _); eexists; split; try reflexivity; discriminate.
  - exists (TokenError MalformedTokenError). split; [| reflexivity].
    unfold verify. rewrite Hsrc. simpl.
    unfold match_, _find_match. rewrite Hnorm.
    destruct (Z.ltb_spec w 0); [lia |].
    apply normalize_token_error in Hnorm. simpl. by rewrite Hnorm.
Qed.

(** An ASCII token all of whose matching counters in the time window are at
    or before the stored counter is turned down with a [TokenError]. *)
Lemma stale_token_rejected (cls : TOTPFactory) token secret now (w n : Z) (tp : TOTP) :
  from_source cls secret = Ok tp →
  0 ≤ w →
  is_ascii (clean token) = true →
  (∀ i, n < i → (now - w) / period tp ≤ i ≤ (now + w) / period tp →
        normalize_token tp token ≠ Ok (_generate tp i)) →
  ∃ k, verify cls token secret now w (Some n) = Raise (TokenError k).
Proof.
  intros Hsrc Hw Ha Hstale.
  destruct (stale_token_not_accepted cls token secret now w n tp Hsrc Hw Hstale)
    as (e & Hv & Htok).
  specialize (Htok Ha). destruct e; try discriminate. eauto.
Qed.

(** A token that matches a counter of the search range is accepted unless
    it also is the token of the stored counter. *)
Lemma fresh_token_accepted (cls : TOTPFactory) token secret now (w c : Z)
      (last : option Z) (tp : TOTP) :
  from_source cls secret = Ok tp →
  0 ≤ w →
  search_first tp now w last ≤ c ≤ search_last tp now w →
  normalize_token tp token = Ok (_generate tp c) →
  (∀ n, last = Some n → _generate tp c ≠ _generate tp n) →
  ∃ m, verify cls token secret now w last = Ok m.
Proof.
  intros Hsrc Hw Hin Hnorm Hlast. unfold verify. rewrite Hsrc. simpl.
  destruct (match_cases tp token _ now w last Hw Hnorm (generate_ascii tp c))
    as [[_ Hno] | (c' & Hin' & Htok & _ & Hr)].
  - exfalso. by apply (Hno c).
  - rewrite Hr.
    destruct (Z.eqb_spec c' (default (-1) last)) as [Heq | Hne]; [| eauto].
    exfalso. destruct last as [n|]; simpl in Heq.
    + subst c'. by apply (Hlast n).
    + unfold search_first in Hin'. lia.
Qed.

End VerifyFacts.

(* ===================================================================== *)
(** ** Properties of [verify_totp]                                         *)
(* ===================================================================== *)

Section VerifyProperties.
Context {B : Backend} {User : Type} {St : Type} (methods : LastCounterMethods User St).
Implicit Types (self : Totp) (token : string) (secret : Source) (user : User)
         (window : option Z) (now : Z) (st : St).

(** C2, as the code has it: on every successful verification
    [set_last_counter] is called once, after the read, with the [TotpMatch]
    object returned by the library (not with a bare integer); its [counter]
    field is the counter the submitted token matched, and it is this field
    that a storing subclass hands back from [get_last_counter]. *)
Theorem set_last_counter_receives_the_match self token secret user window now st :
  let run := verify_totp self token secret user window now st in
  returned run = Ok true →
  ∃ (m : TotpMatch) (tp : TOTP),
    from_source (_totp self) secret = Ok tp
    ∧ totp m = tp
    ∧ normalize_token tp token = Ok (_generate tp (counter m))
    ∧ calls_of run = [GetLastCounter user; SetLastCounter user (PyTotpMatch m)]
    ∧ state_after run = set_last_counter user m st
    ∧ (StoresLastCounter methods →
       get_last_counter user (state_after run) = Some (counter m)).
Proof.
  intros run Htrue.
  destruct (verify_totp_accepted methods self token secret user window now st Htrue)
    as (m & tp & Hsrc & Htp & Hnorm & Hcalls & Hst).
  exists m, tp. fold run in Hcalls, Hst.
  repeat split; try done.
  intros Hstores. rewrite Hst. apply get_set_same.
Qed.

(** C3: a call of [verify_totp] invokes [set_last_counter] exactly once if
    it returns [True] and not at all otherwise; when it does not return
    [True] (it returns [False], or raises) the state of the last-counter
    store is the one it started from. *)
Theorem one_write_iff_true self token secret user window now st :
  let run := verify_totp self token secret user window now st in
  (returned run = Ok true ↔ length (writes (calls_of run)) = 1%nat)
  ∧ (length (writes (calls_of run)) ≤ 1)%nat
  ∧ (returned run = Ok false → writes (calls_of run) = [] ∧ state_after run = st)
  ∧ (returned run ≠ Ok true → writes (calls_of run) = [] ∧ state_after run = st).
Proof.
  intros run. subst run. rewrite verify_totp_unfold.
  destruct (verify _ _ _ _ _ _) as [m|e].
  - unfold returned, calls_of, state_after, writes; simpl.
    repeat split; try done; lia.
  - destruct (is_TokenError e); unfold returned, calls_of, state_after, writes;
      simpl; repeat split; try done; try lia; discriminate.
Qed.

(** C5: when decrypting the stored envelope fails (the tagged key id is not
    in the keyring, or the cipher reports an integrity failure),
    [verify_totp] raises that failure to its caller: it does not return
    [False].  The same holds for every other way the stored secret fails to
    decode.  Whenever [verify_totp] does return [False], the secret had
    decoded and it was the token check of the library that raised a
    [TokenError]. *)
Theorem decrypt_failure_is_raised self token user window now st :
  (∀ (e : Envelope) (err : exn),
     decrypt (wallet (_totp self)) e = Raise err →
     returned (verify_totp self token (Json e) user window now st) = Raise err
     ∧ (err = UnknownKeyError (key_id e) ∨ err = DecryptError))
  ∧ (∀ secret (err : exn),
       from_source (_totp self) secret = Raise err →
       returned (verify_totp self token secret user window now st) = Raise err)
  ∧ (∀ secret,
       returned (verify_totp self token secret user window now st) = Ok false →
       ∃ tp k, from_source (_totp self) secret = Ok tp
               ∧ match_ tp token now (default 0 window) (get_last_counter user st)
                 = Raise (TokenError k)).
Proof.
  assert (∀ secret (err : exn),
            from_source (_totp self) secret = Raise err →
            returned (verify_totp self token secret user window now st) = Raise err)
    as Hraise.
  { intros secret err Hsrc. rewrite verify_totp_unfold.
    unfold verify. rewrite Hsrc. simpl.
    by rewrite (from_source_Raise _ _ _ Hsrc). }
  split; [| split; [exact Hraise |]].
  - intros e err Hdec. split.
    + apply Hraise. unfold from_source. by rewrite Hdec.
    + unfold decrypt in Hdec.
      destruct (keys (wallet (_totp self)) !! key_id e) as [secret|].
      * destruct (unseal secret (salt e) (ciphertext e)); [discriminate |].
        injection Hdec as <-. auto.
      * injection Hdec as <-. auto.
  - intros secret. rewrite verify_totp_unfold. unfold verify.
    destruct (from_source (_totp self) secret) as [tp|e] eqn:Hsrc; simpl.
    + destruct (match_ tp token now _ _) as [m|e] eqn:Hm; [discriminate |].
      destruct e; simpl; try discriminate. intros _. eauto.
    + apply from_source_Raise in Hsrc. rewrite Hsrc. discriminate.
Qed.

End VerifyProperties.

Section Indistinguishable.
Context {B : Backend} {User : Type} {St : Type} (methods : LastCounterMethods User St).

(** Take one call whose token is ASCII once cleaned and matches no counter
    of its time window, and another whose token does match counters of its
    time window, all of them at or before the stored last counter.  Both
    return the same plain [False]; both leave the store as it was and make
    the same single read. *)
Lemma no_match_and_replay_look_alike
        (self : Totp)
        (token1 token2 : string) (secret1 secret2 : Source) (user1 user2 : User)
        (window1 window2 : option Z) (now1 now2 : Z) (st1 st2 : St)
        (tp1 tp2 : TOTP) (n c : Z) :
  let w1 := default 0 window1 in
  let w2 := default 0 window2 in
  let run1 := verify_totp self token1 secret1 user1 window1 now1 st1 in
  let run2 := verify_totp self token2 secret2 user2 window2 now2 st2 in
  (* call 1: no match *)
  from_source (_totp self) secret1 = Ok tp1 →
  0 ≤ w1 →
  is_ascii (clean token1) = true →
  (∀ i, (now1 - w1) / period tp1 ≤ i ≤ (now1 + w1) / period tp1 →
        normalize_token tp1 token1 ≠ Ok (_generate tp1 i)) →
  (* call 2: a replay *)
  from_source (_totp self) secret2 = Ok tp2 →
  0 ≤ w2 →
  get_last_counter user2 st2 = Some n →
  (now2 - w2) / period tp2 ≤ c ≤ (now2 + w2) / period tp2 →
  normalize_token tp2 token2 = Ok (_generate tp2 c) →
  (∀ i, (now2 - w2) / period tp2 ≤ i ≤ (now2 + w2) / period tp2 →
        normalize_token tp2 token2 = Ok (_generate tp2 i) → i ≤ n) →
  returned run1 = Ok false
  ∧ returned run2 = Ok false
  ∧ returned run1 = returned run2
  ∧ state_after run1 = st1 ∧ state_after run2 = st2
  ∧ calls_of run1 = [GetLastCounter user1]
  ∧ calls_of run2 = [GetLastCounter user2].
Proof.
  intros w1 w2 run1 run2 Hsrc1 Hw1 Ha1 Hno Hsrc2 Hw2 Hlast Hc Hmatch Hstale.
  assert (∃ k, verify (_totp self) token1 secret1 now1 w1
                      (get_last_counter user1 st1) = Raise (TokenError k))
    as [k1 Hv1].
  { unfold verify. rewrite Hsrc1. simpl.
    destruct (normalize_token tp1 token1) as [tok|e] eqn:Hnorm.
    - pose proof (normalize_token_Ok _ _ _ Hnorm) as ->.
      destruct (match_cases tp1 token1 _ now1 w1 (get_last_counter user1 st1)
                  Hw1 Hnorm Ha1) as [[Hr _] | (c' & Hin & Htok & _ & _)]; [eauto |].
      exfalso. apply (Hno c'); [| by rewrite <- Htok].
      unfold search_first, search_last in Hin. lia.
    - exists MalformedTokenError. unfold match_, _find_match. rewrite Hnorm.
      destruct (Z.ltb_spec w1 0); [lia |].
      apply normalize_token_error in Hnorm. simpl. by rewrite Hnorm. }
  assert (∃ k, verify (_totp self) token2 secret2 now2 w2
                      (get_last_counter user2 st2) = Raise (TokenError k))
    as [k2 Hv2].
  { rewrite Hlast. eapply stale_token_rejected; [exact Hsrc2 | exact Hw2 | |].
    - exact (normalized_generated_ascii tp2 token2 c Hmatch).
    - intros i Hi Hin Heq. specialize (Hstale i Hin Heq). lia. }
  subst run1 run2. rewrite !verify_totp_unfold. fold w1 w2. rewrite Hv1, Hv2.
  simpl. unfold returned, state_after, calls_of. simpl. done.
Qed.

(** A call whose token passes [normalize_token] without being ASCII, over a
    search range that is not empty, does not return: [verify_totp] lets the
    [TypeError] of the comparison through, with no write. *)
Lemma not_ascii_token_escapes
        (self : Totp) (token : string) (secret : Source) (user : User)
        (window : option Z) (now : Z) (st : St) (tp : TOTP) (tok : string) :
  from_source (_totp self) secret = Ok tp →
  0 ≤ default 0 window →
  normalize_token tp token = Ok tok →
  is_ascii tok = false →
  search_first tp now (default 0 window) (get_last_counter user st)
    ≤ search_last tp now (default 0 window) →
  let run := verify_totp self token secret user window now st in
  returned run = Raise not_ascii_error
  ∧ state_after run = st
  ∧ calls_of run = [GetLastCounter user].
Proof.
  intros Hsrc Hw Hnorm Ha Hrange run. subst run.
  rewrite verify_totp_unfold.
  rewrite (not_ascii_token_raises (_totp self) token secret now (default 0 window)
             (get_last_counter user st) tp tok Hsrc Hw Hnorm Ha).
  destruct (Z.ltb_spec (search_last tp now (default 0 window))
              (search_first tp now (default 0 window) (get_last_counter user st)));
    [lia |].
  unfold returned, state_after, calls_of. simpl. done.
Qed.

End Indistinguishable.

(* ===================================================================== *)
(** ** Anti-replay with a storing subclass                                 *)
(* ===================================================================== *)

Section Replay.
Context {B : Backend} {User : Type} `{EqDecision User} {St : Type}.
Context (methods : LastCounterMethods User St) {stores : StoresLastCounter methods}.

(** Serving a request never lowers a user's stored counter. *)
Lemma serve_keeps_counter (self : Totp) (rq : request User) (user : User) (st : St) (n : Z) :
  (∃ n', get_last_counter user st = Some n' ∧ n ≤ n') →
  ∃ n', get_last_counter user (state_after (serve self rq st)) = Some n' ∧ n ≤ n'.
Proof.
  intros (n0 & Hget & Hle). unfold serve. rewrite verify_totp_unfold.
  destruct (verify _ _ _ _ _ _) as [m|e] eqn:Hv.
  - unfold state_after; simpl.
    destruct (decide (req_user rq = user)) as [Heq | Hne].
    + rewrite Heq in *. rewrite get_set_same. exists (counter m). split; [done |].
      apply verify_Ok in Hv as (tp & _ & Hm).
      apply match_Ok in Hm as (_ & _ & _ & _ & Hlt).
      rewrite Hget in Hlt. simpl in Hlt. lia.
    + rewrite get_set_other by done. eauto.
  - destruct (is_TokenError e); unfold state_after; simpl; eauto.
Qed.

Lemma serve_all_keeps_counter (self : Totp) (rqs : list (request User)) (user : User)
      (st : St) (n : Z) :
  (∃ n', get_last_counter user st = Some n' ∧ n ≤ n') →
  ∃ n', get_last_counter user (serve_all self rqs st) = Some n' ∧ n ≤ n'.
Proof.
  revert st; induction rqs as [|rq rqs IH]; intros st Hst; simpl; [exact Hst |].
  apply IH. apply (serve_keeps_counter self rq user st n Hst).
Qed.


End Replay.

(* ===================================================================== *)
(** ** The time window                                                     *)
(* ===================================================================== *)

Section Window.
Context {B : Backend} {User : Type} {St : Type} (methods : LastCounterMethods User St).

(** The time window has its lower end at or below its upper end, and the
    counter of "now" lies inside. *)
Lemma window_bounds (tp : TOTP) (now w : Z) :
  1 ≤ period tp → 0 ≤ w →
  (now - w) / period tp ≤ center_counter tp now ≤ (now + w) / period tp.
Proof.
  intros Hp Hw. unfold center_counter.
  split; apply Z.div_le_mono; lia.
Qed.

(** A window of [k] whole periods reaches [k] counters to either side. *)
Lemma window_whole_periods (tp : TOTP) (now k : Z) :
  1 ≤ period tp →
  (now - k * period tp) / period tp = center_counter tp now - k
  ∧ (now + k * period tp) / period tp = center_counter tp now + k.
Proof.
  intros Hp. unfold center_counter.
  replace (now - k * period tp) with (now + (- k) * period tp) by lia.
  rewrite !Z.div_add by lia. lia.
Qed.

(** With the stored counter, if any, before the window, acceptance is
    exactly: some counter between [max 0 ((now - w) // period)] and
    [(now + w) // period] has the submitted token; and a token that is ASCII
    once cleaned gets [True] or [False]. *)
Lemma verify_totp_window (self : Totp) (token : string) (secret : Source)
      (user : User) (w now : Z) (st : St) (tp : TOTP) :
  from_source (_totp self) secret = Ok tp →
  0 ≤ w →
  (∀ n, get_last_counter user st = Some n → n < (now - w) / period tp) →
  let run := verify_totp self token secret user (Some w) now st in
  (returned run = Ok true ↔
   ∃ c, Z.max 0 ((now - w) / period tp) ≤ c ≤ (now + w) / period tp
        ∧ normalize_token tp token = Ok (_generate tp c))
  ∧ (is_ascii (clean token) = true →
     returned run = Ok true ∨ returned run = Ok false).
Proof.
  intros Hsrc Hw Hlast run.
  assert (search_first tp now w (get_last_counter user st)
          = Z.max 0 ((now - w) / period tp)) as Hfirst.
  { unfold search_first. destruct (get_last_counter user st) as [n|] eqn:Hn; simpl.
    - specialize (Hlast n eq_refl). lia.
    - lia. }
  assert (returned run = Ok true ↔
          ∃ c, Z.max 0 ((now - w) / period tp) ≤ c ≤ (now + w) / period tp
               ∧ normalize_token tp token = Ok (_generate tp c)) as Hiff.
  { split.
    - intros Htrue. apply verify_totp_true in Htrue as [m Hv]. simpl default in Hv.
      apply verify_Ok in Hv as (tp' & Hsrc' & Hm).
      assert (tp' = tp) as -> by congruence.
      apply match_Ok in Hm as (_ & _ & Hnorm & Hin & _).
      exists (counter m). rewrite Hfirst in Hin. unfold search_last in Hin. done.
    - intros (c & Hc & Hnorm). subst run. rewrite verify_totp_unfold. simpl default.
      unfold verify. rewrite Hsrc. simpl.
      destruct (match_cases tp token _ now w (get_last_counter user st) Hw Hnorm
                  (generate_ascii tp c)) as [[_ Hno] | (c' & Hin & _ & _ & ->)].
      + exfalso. apply (Hno c); [| reflexivity].
        rewrite Hfirst. unfold search_last. exact Hc.
      + rewrite Hfirst in Hin.
        destruct (Z.eqb_spec c' (default (-1) (get_last_counter user st)))
          as [Heq | _]; [| reflexivity].
        exfalso. destruct (get_last_counter user st) as [n|]; simpl in Heq.
        * specialize (Hlast n eq_refl). lia.
        * lia. }
  split; [exact Hiff |].
  intros Ha. subst run. rewrite verify_totp_unfold. simpl default.
  unfold verify. rewrite Hsrc. simpl.
  destruct (match_ tp token now w (get_last_counter user st)) as [m|e] eqn:Hm;
    [left; reflexivity |].
  apply match_Raise in Hm as [[Hneg _] | [[k ->] | [Hna _]]];
    [lia | right; reflexivity | congruence].
Qed.

(** C9, as the code has it.  Let [verify_totp] be given a window of [k]
    whole periods, that is [k * period] seconds, and let the stored counter
    of the user, if any, be below [center_counter - k].  Then verification
    accepts exactly the tokens generated by the counters from
    [center_counter - k] (or 0, if that is negative) to [center_counter + k],
    both ends included: the code generated at counter [center_counter - k]
    is accepted when that counter is not negative, and the code generated at
    counter [center_counter - k - 1], one step outside, is refused with
    [False] unless a counter of the range generates the same code. *)
Theorem window_is_inclusive
        (self : Totp) (secret : Source) (user : User)
        (k now : Z) (st : St) (tp : TOTP) :
  from_source (_totp self) secret = Ok tp →
  0 ≤ k →
  (∀ n, get_last_counter user st = Some n → n < center_counter tp now - k) →
  let center := center_counter tp now in
  let run token := verify_totp self token secret user (Some (k * period tp)) now st in
  (∀ token,
     returned (run token) = Ok true ↔
     ∃ c, Z.max 0 (center - k) ≤ c ≤ center + k
          ∧ normalize_token tp token = Ok (_generate tp c))
  ∧ (0 ≤ center - k → returned (run (_generate tp (center - k))) = Ok true)
  ∧ ((∀ c, Z.max 0 (center - k) ≤ c ≤ center + k →
           _generate tp c ≠ _generate tp (center - k - 1)) →
     returned (run (_generate tp (center - k - 1))) = Ok false).
Proof.
  intros Hsrc Hk Hlast center run.
  destruct (from_source_Ok _ _ _ Hsrc) as [Hdigits Hperiod].
  destruct (window_whole_periods tp now k Hperiod) as [Hlow Hhigh].
  fold center in Hlow, Hhigh.
  assert (0 ≤ k * period tp) as Hw by nia.
  assert (∀ n, get_last_counter user st = Some n →
               n < (now - k * period tp) / period tp) as Hlast'.
  { intros n Hn. rewrite Hlow. by apply Hlast. }
  assert (∀ token,
            (returned (run token) = Ok true ↔
             ∃ c, Z.max 0 (center - k) ≤ c ≤ center + k
                  ∧ normalize_token tp token = Ok (_generate tp c))
            ∧ (is_ascii (clean token) = true →
               returned (run token) = Ok true ∨ returned (run token) = Ok false))
    as Hwindow.
  { intros token.
    pose proof (verify_totp_window self token secret user (k * period tp) now st tp
                  Hsrc Hw Hlast') as Hvw.
    rewrite Hlow, Hhigh in Hvw. exact Hvw. }
  assert (∀ c, normalize_token tp (_generate tp c) = Ok (_generate tp c)) as Hnorm.
  { intros c. apply normalize_generated. lia. }
  split; [intros token; apply Hwindow |]. split.
  - intros Hlow0. apply Hwindow. exists (center - k). split; [lia | apply Hnorm].
  - intros Hno.
    destruct (Hwindow (_generate tp (center - k - 1))) as [Hiff Htotal].
    destruct Htotal as [Htrue | Hfalse]; [| | exact Hfalse].
    + exact (normalized_generated_ascii tp _ _ (Hnorm (center - k - 1))).
    + exfalso. apply Hiff in Htrue as (c & Hc & Heq).
      rewrite Hnorm in Heq. injection Heq as Heq. by apply (Hno c Hc).
Qed.


End Window.

(* ===================================================================== *)
(** ** The class as shipped: no override                                   *)
(* ===================================================================== *)

Section BaseClass.
Context {B : Backend} {User : Type} {St : Type}.

(** With the methods of the base class a call neither depends on the state
    nor changes it. *)
Lemma base_verify_totp_run (self : Totp) (token : string) (secret : Source) (user : User)
      (window : option Z) (now : Z) (st : St) :
  let run := verify_totp (methods := base_methods User St)
                         self token secret user window now st in
  state_after run = st
  ∧ returned run =
      match verify (_totp self) token secret now (default 0 window) None with
      | Ok _ => Ok true
      | Raise e => if is_TokenError e then Ok false else Raise e
      end.
Proof.
  intros run. subst run. rewrite verify_totp_unfold. simpl.
  destruct (verify _ _ _ _ _ _) as [m|e]; [done |].
  by destruct (is_TokenError e).
Qed.

(** C7: when the two accessors are not overridden, [get_last_counter]
    returns [None] for every user and [set_last_counter] writes nothing;
    every counter of the time window whose token is submitted is then
    admissible, and a token that verified once verifies again on a second
    submission at the same clock reading, for any user and whatever was
    served in between. *)
Theorem base_class_accepts_replays
        (self : Totp) (token : string) (secret : Source) (user : User)
        (window : option Z) (now : Z) (st : St) :
  let methods := base_methods User St in
  let run := verify_totp (methods := methods) self token secret user window now st in
  (∀ u s, get_last_counter (LastCounterMethods := methods) u s = None)
  ∧ (∀ u m s, set_last_counter (LastCounterMethods := methods) u m s = s)
  ∧ state_after run = st
  ∧ (∀ tp c, from_source (_totp self) secret = Ok tp →
             0 ≤ default 0 window →
             Z.max 0 ((now - default 0 window) / period tp) ≤ c
               ≤ (now + default 0 window) / period tp →
             normalize_token tp token = Ok (_generate tp c) →
             returned run = Ok true)
  ∧ (returned run = Ok true →
     ∀ (rqs : list (request User)) (user' : User),
       returned (verify_totp (methods := methods) self token secret user' window now
                             (serve_all (methods := methods) self rqs (state_after run)))
       = Ok true).
Proof.
  intros methods run.
  destruct (base_verify_totp_run self token secret user window now st) as [Hst Hret].
  fold methods in Hst, Hret. fold run in Hst, Hret.
  split; [reflexivity |]. split; [reflexivity |]. split; [exact Hst |]. split.
  - intros tp c Hsrc Hw Hc Hnorm. rewrite Hret.
    destruct (fresh_token_accepted (_totp self) token secret now (default 0 window)
                c None tp Hsrc Hw) as [m ->]; try done.
    unfold search_first, search_last. simpl. lia.
  - intros Htrue rqs user'.
    destruct (base_verify_totp_run self token secret user' window now
                (serve_all (methods := methods) self rqs (state_after run)))
      as [_ Hret'].
    fold methods in Hret'. rewrite Hret', <- Hret. exact Htrue.
Qed.

End BaseClass.

(* ===================================================================== *)
(** ** Construction and the stored secret                                  *)
(* ===================================================================== *)

Section Construction.
Context {B : Backend}.

(** C4: [Totp(secrets, issuer)] raises its configuration error when
    [secrets] is not a dict or is an empty dict, so that no [Totp] exists on
    which a secret could be generated; for a non-empty dict it does not
    raise that error: the outcome is the one of [TOTP.using], and an
    instance is returned whenever the library accepts the arguments. *)
Theorem init_checks_secrets (secrets : pyval) (issuer : string) :
  ((∀ d, secrets = PyDict d → d = ∅) →
   __init__ secrets issuer = Raise config_error
   ∧ ¬ ∃ self, __init__ secrets issuer = Ok self)
  ∧ (∀ d, secrets = PyDict d → d ≠ ∅ →
          __init__ secrets issuer ≠ Raise config_error
          ∧ __init__ secrets issuer = (cls ← using_ issuer d; Ok {| _totp := cls |})
          ∧ (accepts d issuer = true → ∃ self, __init__ secrets issuer = Ok self)).
Proof.
  split.
  - intros Hbad.
    assert (__init__ secrets issuer = Raise config_error) as Hr.
    { destruct secrets as [| | | | | d |]; try reflexivity.
      rewrite (Hbad d eq_refl). reflexivity. }
    split; [exact Hr |]. intros [self Hself]. congruence.
  - intros d -> Hne. simpl.
    assert ((size d <? 1)%nat = false) as ->.
    { apply Nat.ltb_ge. destruct (size d) eqn:Hsz; [| lia].
      by apply map_size_empty_iff in Hsz. }
    unfold using_. destruct (accepts d issuer); simpl.
    + repeat split; [discriminate | eauto].
    + repeat split; discriminate.
Qed.

(** C8: an instance built from a keyring round-trips the secrets it
    generates, provided the cipher inverts itself and the designated key is
    in the keyring: [generate_totp_secret] returns an envelope, decrypting
    the envelope with the same instance recovers the key bytes [rnd] and the
    parameters, and [generate_totp_password] on the envelope gives, at every
    clock reading, the token of the original. *)
Theorem generated_secret_round_trips
        (laws : BackendLaws B) (secrets : pyval) (issuer : string) (self : Totp)
        (rnd salt : string) :
  __init__ secrets issuer = Ok self →
  let original := new (_totp self) rnd in
  ∃ env : Envelope,
    generate_totp_secret self rnd salt = Ok (Json env)
    ∧ decrypt (wallet (_totp self)) env = Ok rnd
    ∧ from_source (_totp self) (Json env) = Ok original
    ∧ ∀ now, generate_totp_password self (Json env) now = generate original now.
Proof.
  intros Hinit original.
  destruct secrets as [| | | | | d |]; try discriminate. simpl in Hinit.
  destruct (Nat.ltb_spec (size d) 1) as [| Hsize]; [discriminate |].
  unfold using_ in Hinit. destruct (accepts d issuer); [| discriminate].
  simpl in Hinit. injection Hinit as <-.
  assert (d ≠ ∅) as Hne.
  { intros ->. rewrite map_size_empty in Hsize. lia. }
  destruct (designate_present d Hne) as [secret Hsecret].
  set (cls := {| wallet := {| keys := d; current := designate d |};
                 factory_issuer := issuer |}).
  exists {| key_id := designate d; salt := salt;
            ciphertext := seal secret salt rnd;
            env_alg := default_alg; env_digits := default_digits;
            env_period := default_period; env_issuer := issuer |}.
  assert (decrypt (wallet cls)
            {| key_id := designate d; salt := salt;
               ciphertext := seal secret salt rnd;
               env_alg := default_alg; env_digits := default_digits;
               env_period := default_period; env_issuer := issuer |} = Ok rnd)
    as Hdec.
  { unfold decrypt. simpl. rewrite Hsecret, unseal_seal. reflexivity. }
  assert (from_source cls
            (Json {| key_id := designate d; salt := salt;
                     ciphertext := seal secret salt rnd;
                     env_alg := default_alg; env_digits := default_digits;
                     env_period := default_period; env_issuer := issuer |})
          = Ok original) as Hfrom.
  { unfold from_source. rewrite Hdec. reflexivity. }
  split; [| split; [exact Hdec | split; [exact Hfrom |]]].
  - unfold generate_totp_secret, to_json, encrypt. simpl. rewrite Hsecret.
    reflexivity.
  - intros now. unfold generate_totp_password. simpl _totp. rewrite Hfrom.
    reflexivity.
Qed.

End Construction.

(* ===================================================================== *)
(** ** The concrete backend satisfies the laws                             *)
(* ===================================================================== *)

Section RfcBackend.
Import Rfc.

Lemma xorb_twice (x y : bool) : xorb (xorb x y) y = x.
Proof. by destruct x, y. Qed.

Lemma xor_ascii_twice (a b : ascii) : xor_ascii (xor_ascii a b) b = a.
Proof.
  destruct a as [a0 a1 a2 a3 a4 a5 a6 a7], b as [b0 b1 b2 b3 b4 b5 b6 b7].
  simpl. f_equal; apply xorb_twice.
Qed.

Lemma xor_with_length (ks : list ascii) (data : string) :
  String.length (xor_with ks data) = String.length data.
Proof.
  revert ks; induction data as [|a s IH]; intros ks; [reflexivity |].
  destruct ks as [|k ks]; simpl; [reflexivity | by rewrite IH].
Qed.

(** Applying the key stream twice gives the data back. *)
Lemma xor_with_twice (ks : list ascii) (data : string) :
  xor_with ks (xor_with ks data) = data.
Proof.
  revert ks; induction data as [|a s IH]; intros ks; [reflexivity |].
  destruct ks as [|k ks]; simpl; [reflexivity |].
  by rewrite xor_ascii_twice, IH.
Qed.

Lemma ctr_crypt_twice (secret salt data : string) :
  ctr_crypt secret salt (ctr_crypt secret salt data) = data.
Proof.
  unfold ctr_crypt. rewrite xor_with_length. apply xor_with_twice.
Qed.

Lemma fold_greater_In (ts : list string) (t : string) :
  In (fold_left greater ts t) (t :: ts).
Proof.
  revert t; induction ts as [|a ts IH]; intros t; simpl; [auto |].
  destruct (IH (greater t a)) as [Heq | Hin]; [| auto].
  rewrite <- Heq. unfold greater. destruct (String.ltb t a); auto.
Qed.

Lemma max_tag_In (ts : list string) : ts ≠ [] → In (max_tag ts) ts.
Proof. destruct ts as [|t ts]; [done |]. intros _. apply fold_greater_In. Qed.

Lemma backend_laws : BackendLaws backend.
Proof.
  split.
  - intros secret salt data. simpl. by rewrite ctr_crypt_twice.
  - intros secrets Hne. simpl.
    assert (In (max_tag (map fst (map_to_list secrets))) (map fst (map_to_list secrets)))
      as Hin.
    { apply max_tag_In. intros Hnil. apply Hne.
      apply map_to_list_empty_iff. by destruct (map_to_list secrets). }
    apply in_map_iff in Hin as ([k v] & Hk & Hkv). simpl in Hk. rewrite <- Hk.
    exists v. apply elem_of_map_to_list. by apply list_elem_of_In.
Qed.

(** The cache subclass stores what it is given. *)
Lemma cache_stores {User} `{Countable User} :
  StoresLastCounter (cache_methods (User := User)).
Proof.
  split.
  - intros user tmatch st. simpl. apply lookup_insert_eq.
  - intros user user' tmatch st Hne. simpl. by apply lookup_insert_ne.
Qed.

(** The concrete objects are what the methods produce. *)
Example rfc_self_built :
  __init__ (B := backend) (PyDict app_secrets) "flask" = Ok rfc_self.
Proof. vm_compute. reflexivity. Qed.

Example rfc_source_generated :
  generate_totp_secret (B := backend) rfc_self rfc_key "salt" = Ok rfc_source.
Proof. vm_compute. reflexivity. Qed.

Example rfc_source_decodes :
  from_source (B := backend) (_totp rfc_self) rfc_source = Ok rfc_totp.
Proof. vm_compute. reflexivity. Qed.

(** RFC 4226, appendix D: the first ten HOTP values of the test secret. *)
Example rfc4226_vectors :
  map (_generate (B := backend) rfc_totp) [0; 1; 2; 3; 4; 5; 6; 7; 8; 9] =
  ["755224"; "287082"; "359152"; "969429"; "338314";
   "254676"; "287922"; "162583"; "399871"; "520489"]%string.
Proof. vm_compute. reflexivity. Qed.

(** Two counters of the test secret with the same token. *)
Example rfc_collision :
  _generate (B := backend) rfc_totp 2386 = "709847"%string
  ∧ _generate (B := backend) rfc_totp 2394 = "709847"%string.
Proof. vm_compute. split; reflexivity. Qed.

End RfcBackend.

(* ===================================================================== *)
(** ** Concrete runs on the RFC 4226 secret                                *)
(* ===================================================================== *)

Section Runs.
Import Rfc.

(** The accepted run, in full. *)
Example first_run_value :
  first_run =
  (Ok true, {[ alice := 1 ]},
   [GetLastCounter alice;
    SetLastCounter alice
      (PyTotpMatch {| totp := rfc_totp; counter := 1; time := 45; window := 0 |})]).
Proof. vm_compute. reflexivity. Qed.


(** C2, as amended, at the RFC secret. *)
Lemma set_last_counter_witness :
  returned first_run = Ok true
  ∧ ∃ (m : TotpMatch) (tp : TOTP),
      from_source (B := backend) (_totp rfc_self) rfc_source = Ok tp
      ∧ totp m = tp
      ∧ normalize_token tp "287082" = Ok (_generate (B := backend) tp (counter m))
      ∧ calls_of first_run
        = [GetLastCounter alice; SetLastCounter alice (PyTotpMatch m)]
      ∧ state_after first_run
        = set_last_counter (LastCounterMethods := cache_methods) alice m ∅
      ∧ (StoresLastCounter (cache_methods (User := string)) →
         get_last_counter (LastCounterMethods := cache_methods) alice
                          (state_after first_run) = Some (counter m)).
Proof.
  assert (returned first_run = Ok true) as Htrue by (vm_compute; reflexivity).
  split; [exact Htrue |].
  exact (set_last_counter_receives_the_match
           (B := backend) cache_methods rfc_self "287082" rfc_source alice None 45 ∅
           Htrue).
Defined.

(** C2 as stated fails: in the accepted run the argument of
    [set_last_counter] is a [TotpMatch]; no call hands it the matched
    counter as an integer. *)
Lemma set_last_counter_argument_is_not_an_integer :
  returned first_run = Ok true
  ∧ calls_of first_run =
      [GetLastCounter alice;
       SetLastCounter alice
         (PyTotpMatch {| totp := rfc_totp; counter := 1; time := 45; window := 0 |})]
  ∧ ¬ ∃ n : Z, In (SetLastCounter alice (PyInt n)) (calls_of first_run).
Proof.
  assert (calls_of first_run =
      [GetLastCounter alice;
       SetLastCounter alice
         (PyTotpMatch {| totp := rfc_totp; counter := 1; time := 45; window := 0 |})])
    as Hcalls by (vm_compute; reflexivity).
  split; [vm_compute; reflexivity |]. split; [exact Hcalls |].
  rewrite Hcalls. intros [n [Hin | [Hin | []]]]; discriminate.
Qed.

(** C3 at the RFC secret. *)
Lemma one_write_witness :
  (returned first_run = Ok true ↔ length (writes (calls_of first_run)) = 1%nat)
  ∧ (length (writes (calls_of first_run)) ≤ 1)%nat
  ∧ (returned first_run = Ok false →
     writes (calls_of first_run) = [] ∧ state_after first_run = ∅)
  ∧ (returned first_run ≠ Ok true →
     writes (calls_of first_run) = [] ∧ state_after first_run = ∅).
Proof.
  exact (one_write_iff_true (B := backend) cache_methods
           rfc_self "287082" rfc_source alice None 45 ∅).
Defined.

(** C4 at four configurations. *)
Lemma init_witness :
  __init__ (B := backend) PyNone "flask" = Raise config_error
  ∧ __init__ (B := backend) (PyMappingProxy app_secrets) "flask" = Raise config_error
  ∧ __init__ (B := backend) (PyDict ∅) "flask" = Raise config_error
  ∧ __init__ (B := backend) (PyDict app_secrets) "flask" ≠ Raise config_error
  ∧ ∃ self, __init__ (B := backend) (PyDict app_secrets) "flask" = Ok self.
Proof.
  split; [| split; [| split]].
  - apply (init_checks_secrets (B := backend) PyNone "flask"). intros d Hd. discriminate.
  - apply (init_checks_secrets (B := backend) (PyMappingProxy app_secrets) "flask").
    intros d Hd. discriminate.
  - apply (init_checks_secrets (B := backend) (PyDict ∅) "flask").
    intros d Hd. by injection Hd as <-.
  - destruct (proj2 (init_checks_secrets (B := backend) (PyDict app_secrets) "flask")
                app_secrets eq_refl) as (Hne & _ & Hok).
    + apply insert_non_empty.
    + split; [exact Hne | apply Hok; vm_compute; reflexivity].
Defined.

(** C5 at an envelope whose key id was rotated out of the keyring. *)
Lemma decrypt_failure_witness :
  decrypt (B := backend) (wallet (_totp rfc_self)) stale_envelope
  = Raise (UnknownKeyError "0")
  ∧ returned (cached_verify_totp rfc_self "287082" (Json stale_envelope) alice None 45 ∅)
    = Raise (UnknownKeyError "0").
Proof.
  assert (decrypt (B := backend) (wallet (_totp rfc_self)) stale_envelope
          = Raise (UnknownKeyError "0")) as Hdec by (vm_compute; reflexivity).
  split; [exact Hdec |].
  exact (proj1 (proj1 (decrypt_failure_is_raised (B := backend) cache_methods
                         rfc_self "287082" alice None 45 ∅)
                  stale_envelope _ Hdec)).
Defined.

Example token_of_step_1 : _generate (B := backend) rfc_totp 1 = "287082"%string.
Proof. vm_compute. reflexivity. Qed.

Example zeros_normalised :
  normalize_token rfc_totp "000000" = Ok "000000"%string.
Proof. vm_compute. reflexivity. Qed.

(** At the RFC secret: a wrong token against an empty cache, and the
    token of step 1 against a cache that already holds counter 1. *)
Lemma look_alike_witness :
  from_source (B := backend) (_totp rfc_self) rfc_source = Ok rfc_totp
  ∧ get_last_counter (LastCounterMethods := cache_methods) alice {[ alice := 1 ]}
    = Some 1
  ∧ normalize_token rfc_totp "287082"
    = Ok (_generate (B := backend) rfc_totp 1)
  ∧ returned (cached_verify_totp rfc_self "000000" rfc_source alice None 45 ∅)
    = Ok false
  ∧ returned (cached_verify_totp rfc_self "287082" rfc_source alice None 45
                                 {[ alice := 1 ]}) = Ok false.
Proof.
  assert (get_last_counter (LastCounterMethods := cache_methods) alice {[ alice := 1 ]}
          = Some 1) as Hlast by (vm_compute; reflexivity).
  assert (normalize_token rfc_totp "287082"
          = Ok (_generate (B := backend) rfc_totp 1)) as Hnorm
      by (vm_compute; reflexivity).
  split; [exact rfc_source_decodes |]. split; [exact Hlast |]. split; [exact Hnorm |].
  assert (0 ≤ default 0 (@None Z)) as Hw by (simpl; lia).
  assert (is_ascii (clean "000000") = true) as Hascii by reflexivity.
  assert (∀ i, (45 - default 0 None) / period rfc_totp ≤ i
               ≤ (45 + default 0 None) / period rfc_totp → i = 1) as Hrange.
  { intros i Hi. cbv [default period rfc_totp] in Hi.
    replace ((45 - 0) `div` 30) with 1 in Hi by reflexivity.
    replace ((45 + 0) `div` 30) with 1 in Hi by reflexivity. lia. }
  assert (∀ i, (45 - default 0 None) / period rfc_totp ≤ i
               ≤ (45 + default 0 None) / period rfc_totp →
               normalize_token rfc_totp "000000"
               ≠ Ok (_generate (B := backend) rfc_totp i)) as Hno.
  { intros i Hi. rewrite (Hrange i Hi), zeros_normalised, token_of_step_1.
    discriminate. }
  assert ((45 - default 0 None) / period rfc_totp ≤ 1
          ≤ (45 + default 0 None) / period rfc_totp) as Hc.
  { cbv [default period rfc_totp].
    replace ((45 - 0) `div` 30) with 1 by reflexivity.
    replace ((45 + 0) `div` 30) with 1 by reflexivity. lia. }
  assert (∀ i, (45 - default 0 None) / period rfc_totp ≤ i
               ≤ (45 + default 0 None) / period rfc_totp →
               normalize_token rfc_totp "287082"
               = Ok (_generate (B := backend) rfc_totp i) → i ≤ 1) as Hstale.
  { intros i Hi _. rewrite (Hrange i Hi). lia. }
  destruct (no_match_and_replay_look_alike (B := backend) cache_methods rfc_self
              "000000" "287082" rfc_source rfc_source alice alice None None 45 45
              ∅ {[ alice := 1 ]} rfc_totp rfc_totp 1 1
              rfc_source_decodes Hw Hascii Hno rfc_source_decodes Hw Hlast Hc Hnorm
              Hstale)
    as (H1 & H2 & _).
  split; [exact H1 | exact H2].
Defined.

(** C7 at the RFC secret: the same token is accepted twice. *)
Lemma base_class_witness :
  returned (base_verify_totp rfc_self "287082" rfc_source alice None 45 tt) = Ok true
  ∧ returned (base_verify_totp rfc_self "287082" rfc_source alice None 45
                (state_after
                   (base_verify_totp rfc_self "287082" rfc_source alice None 45 tt)))
    = Ok true.
Proof.
  assert (returned (base_verify_totp rfc_self "287082" rfc_source alice None 45 tt)
          = Ok true) as Htrue by (vm_compute; reflexivity).
  split; [exact Htrue |].
  exact (proj2 (proj2 (proj2 (proj2
           (base_class_accepts_replays (B := backend) (St := unit)
              rfc_self "287082" rfc_source alice None 45 tt)))) Htrue [] alice).
Defined.

(** C8 at the RFC secret. *)
Lemma round_trip_witness :
  __init__ (B := backend) (PyDict app_secrets) "flask" = Ok rfc_self
  ∧ ∃ env : Envelope,
      generate_totp_secret (B := backend) rfc_self rfc_key "salt" = Ok (Json env)
      ∧ decrypt (B := backend) (wallet (_totp rfc_self)) env = Ok rfc_key
      ∧ from_source (B := backend) (_totp rfc_self) (Json env)
        = Ok (new (_totp rfc_self) rfc_key)
      ∧ ∀ now, generate_totp_password (B := backend) rfc_self (Json env) now
               = generate (B := backend) (new (_totp rfc_self) rfc_key) now.
Proof.
  split; [exact rfc_self_built |].
  exact (generated_secret_round_trips (B := backend) backend_laws
           (PyDict app_secrets) "flask" rfc_self rfc_key "salt" rfc_self_built).
Defined.

(** C9, as amended, at the RFC secret: at second 71730 the current counter
    is 2391, and with a window of 4 periods the code of counter 2387 is
    accepted. *)
Lemma window_witness :
  from_source (B := backend) (_totp rfc_self) rfc_source = Ok rfc_totp
  ∧ center_counter rfc_totp 71730 - 4 = 2387
  ∧ returned (cached_verify_totp rfc_self
                (_generate (B := backend) rfc_totp (center_counter rfc_totp 71730 - 4))
                rfc_source alice (Some (4 * period rfc_totp)) 71730 ∅) = Ok true.
Proof.
  assert (center_counter rfc_totp 71730 - 4 = 2387) as Hlo by reflexivity.
  split; [exact rfc_source_decodes |]. split; [exact Hlo |].
  assert (∀ n, get_last_counter (LastCounterMethods := cache_methods) alice ∅ = Some n →
               n < center_counter rfc_totp 71730 - 4) as Hlast.
  { intros n Hn. vm_compute in Hn. discriminate Hn. }
  assert (0 ≤ 4) as Hk by lia.
  destruct (window_is_inclusive (B := backend) cache_methods rfc_self
              rfc_source alice 4 71730 ∅ rfc_totp rfc_source_decodes Hk Hlast)
    as (_ & Hlow & _).
  apply Hlow. rewrite Hlo. lia.
Defined.


(** C9 as stated fails: at second 71730 the current counter is 2391, and
    with a window of 4 periods the code generated at counter
    [2391 - 4 - 1], one step outside the range, is accepted, because counter
    2394 inside the range has the same code. *)
Lemma window_claim_fails :
  center_counter rfc_totp 71730 - 4 - 1 = 2386
  ∧ returned (cached_verify_totp rfc_self (_generate (B := backend) rfc_totp 2386)
                rfc_source alice (Some (4 * 30)) 71730 ∅) = Ok true.
Proof. vm_compute. split; reflexivity. Qed.

(** C6 fails at a token with a digit outside ASCII.  At second 45, against
    an empty cache, the six-character token ending in a superscript two
    matches no counter of the window, and the call does not return [False]:
    it raises the [TypeError] of the comparison.  The replay of the accepted
    token of step 1, against a cache holding counter 1, returns [False].
    The caller tells the two apart. *)
Lemma not_ascii_no_match_is_not_false :
  normalize_token rfc_totp Samples.superscript_token = Ok Samples.superscript_token
  ∧ returned (cached_verify_totp rfc_self Samples.superscript_token rfc_source alice
                                 None 45 ∅)
    = Raise not_ascii_error
  ∧ returned (cached_verify_totp rfc_self "287082" rfc_source alice None 45
                                 {[ alice := 1 ]}) = Ok false.
Proof. vm_compute. repeat split; reflexivity. Qed.

End Runs.

(* ===================================================================== *)
(** ** Further properties: passwords                                       *)
(* ===================================================================== *)

Section Passwords.
Context {B : Backend}.

Lemma decimal_char_ok (d : Z) :
  0 ≤ d < 10 → is_decimal_char (chr (48 + d)) = true.
Proof.
  intros Hd.
  assert (d = 0 ∨ d = 1 ∨ d = 2 ∨ d = 3 ∨ d = 4 ∨ d = 5 ∨ d = 6 ∨ d = 7
          ∨ d = 8 ∨ d = 9) as Hcases by lia.
  repeat (destruct Hcases as [-> | Hcases]; [reflexivity |]).
  by subst d.
Qed.

Lemma decimal_string_app (s t : string) :
  decimal_string (s +:+ t) = decimal_string s && decimal_string t.
Proof.
  induction s as [|a s IH]; simpl; [reflexivity |].
  by rewrite IH, andb_assoc.
Qed.

Lemma last_decimals_decimal (n : nat) (value : Z) :
  decimal_string (last_decimals n value) = true.
Proof.
  revert value; induction n as [|n IH]; intros value; simpl; [reflexivity |].
  rewrite decimal_string_app, IH. simpl.
  rewrite decimal_char_ok; [reflexivity |].
  apply Z.mod_pos_bound. lia.
Qed.

(** What [generate_totp_password] returned, or why it raised. *)
Lemma generate_totp_password_inv (self : Totp) (secret : Source) (now : Z) :
  match generate_totp_password self secret now with
  | Ok tok =>
      ∃ tp, from_source (_totp self) secret = Ok tp
            ∧ 0 ≤ now
            ∧ 0 ≤ center_counter tp now
            ∧ tok = _generate tp (center_counter tp now)
  | Raise e =>
      from_source (_totp self) secret = Raise e
      ∨ ∃ tp, from_source (_totp self) secret = Ok tp
              ∧ now < 0
              ∧ e = ValueError "timestamp must be >= 0"
  end.
Proof.
  unfold generate_totp_password.
  destruct (from_source (_totp self) secret) as [tp|e] eqn:Hsrc; simpl; [| auto].
  destruct (from_source_Ok _ _ _ Hsrc) as [_ Hperiod].
  unfold generate, _time_to_counter, center_counter.
  destruct (Z.ltb_spec (now / period tp) 0) as [Hneg | Hpos].
  - right. exists tp. repeat split; try done.
    destruct (Z.lt_ge_cases now 0) as [? | Hnow]; [done |].
    pose proof (Z.div_pos now (period tp) Hnow). lia.
  - exists tp. repeat split; try done.
    destruct (Z.lt_ge_cases now 0) as [Hnow | ?]; [| done].
    pose proof (Z.div_lt_upper_bound now (period tp) 0). lia.
Qed.

(** X1: the one-time password is a string of exactly [digits] ASCII digits
    (6 to 10 of them), the token of the current time step; the method raises
    when the stored secret does not decode, with the decoder's error, and
    when the clock is before the epoch. *)
Theorem password_is_decimal_of_fixed_length
        (self : Totp) (secret : Source) (now : Z) :
  match generate_totp_password self secret now with
  | Ok tok =>
      ∃ tp, from_source (_totp self) secret = Ok tp
            ∧ 0 ≤ now
            ∧ tok = _generate tp (center_counter tp now)
            ∧ String.length tok = digits tp
            ∧ (6 ≤ String.length tok ≤ 10)%nat
            ∧ decimal_string tok = true
  | Raise e =>
      from_source (_totp self) secret = Raise e
      ∨ ∃ tp, from_source (_totp self) secret = Ok tp
              ∧ now < 0
              ∧ e = ValueError "timestamp must be >= 0"
  end.
Proof.
  pose proof (generate_totp_password_inv self secret now) as Hinv.
  destruct (generate_totp_password self secret now) as [tok|e]; [| exact Hinv].
  destruct Hinv as (tp & Hsrc & Hnow & _ & ->).
  destruct (from_source_Ok _ _ _ Hsrc) as [Hdigits _].
  exists tp. unfold _generate. set (value := Z.land _ 0x7fffffff).
  destruct (last_decimals_wf (digits tp) value) as (_ & _ & Hlen).
  rewrite Hlen, last_decimals_decimal. repeat split; try done; lia.
Qed.

End Passwords.

(* ===================================================================== *)
(** ** Further properties: one call of [verify_totp]                       *)
(* ===================================================================== *)

Section MoreVerify.
Context {B : Backend} {User : Type} {St : Type} (methods : LastCounterMethods User St).

(** The token of the current step is accepted at the default window when
    the stored counter, if any, is before the current step; the match of
    the current step goes to [set_last_counter]. *)
Lemma current_token_accepted
      (self : Totp) (secret : Source) (user : User) (now : Z) (st : St) (tp : TOTP) :
  from_source (_totp self) secret = Ok tp →
  0 ≤ center_counter tp now →
  (∀ n, get_last_counter user st = Some n → n < center_counter tp now) →
  let m := {| totp := tp; counter := center_counter tp now; time := now; window := 0 |} in
  verify_totp self (_generate tp (center_counter tp now)) secret user None now st
  = (Ok true, set_last_counter user m st,
     [GetLastCounter user; SetLastCounter user (PyTotpMatch m)]).
Proof.
  intros Hsrc Hcenter Hlast m.
  destruct (from_source_Ok _ _ _ Hsrc) as [Hdigits Hperiod].
  assert (normalize_token tp (_generate tp (center_counter tp now))
          = Ok (_generate tp (center_counter tp now))) as Hnorm.
  { apply normalize_generated. lia. }
  rewrite verify_totp_unfold. simpl default.
  unfold verify. rewrite Hsrc. simpl.
  assert (0 ≤ 0) as Hw by lia.
  destruct (match_cases tp _ _ now 0 (get_last_counter user st) Hw Hnorm
              (generate_ascii tp (center_counter tp now)))
    as [[_ Hno] | (c & Hin & _ & _ & Hr)].
  - exfalso. apply (Hno (center_counter tp now)); [| reflexivity].
    unfold search_first, search_last, center_counter in *.
    replace (now - 0) with now by lia. replace (now + 0) with now by lia.
    destruct (get_last_counter user st) as [n|]; simpl.
    + specialize (Hlast n eq_refl). lia.
    + lia.
  - assert (c = center_counter tp now) as ->.
    { unfold search_first, search_last, center_counter in *.
      replace (now - 0) with now in Hin by lia.
      replace (now + 0) with now in Hin by lia. lia. }
    rewrite Hr.
    destruct (Z.eqb_spec (center_counter tp now) (default (-1) (get_last_counter user st)))
      as [Heq | _]; [| done].
    exfalso. destruct (get_last_counter user st) as [n|]; simpl in Heq.
    + specialize (Hlast n eq_refl). lia.
    + lia.
Qed.

(** X2: the password that [generate_totp_password] gives for a stored secret
    verifies at the same clock reading with [window] left out, provided the
    stored counter of the user, if any, is before the current time step;
    the match handed to [set_last_counter] is the one of the current step. *)
Theorem fresh_password_verifies
        (self : Totp) (secret : Source) (user : User) (now : Z) (st : St)
        (tok : string) (tp : TOTP) :
  from_source (_totp self) secret = Ok tp →
  generate_totp_password self secret now = Ok tok →
  (∀ n, get_last_counter user st = Some n → n < center_counter tp now) →
  let run := verify_totp self tok secret user None now st in
  returned run = Ok true
  ∧ state_after run =
      set_last_counter user
        {| totp := tp; counter := center_counter tp now; time := now; window := 0 |}
        st.
Proof.
  intros Hsrc Hgen Hlast run. subst run.
  pose proof (generate_totp_password_inv self secret now) as Hinv.
  rewrite Hgen in Hinv. destruct Hinv as (tp' & Hsrc' & Hnow & Hcenter & ->).
  assert (tp' = tp) as -> by congruence.
  rewrite (current_token_accepted self secret user now st tp Hsrc Hcenter Hlast).
  done.
Qed.

(** X3: [window] absorbs a clock difference of that many seconds: a password
    generated at clock reading [t] verifies at clock reading [t'] with
    window [w] whenever [t] is within [w] seconds of [t'], provided the
    stored counter of the user, if any, lies before the window. *)
Theorem password_verifies_within_window
        (self : Totp) (secret : Source) (user : User) (t t' w : Z) (st : St)
        (tok : string) (tp : TOTP) :
  from_source (_totp self) secret = Ok tp →
  generate_totp_password self secret t = Ok tok →
  t' - w ≤ t ≤ t' + w →
  (∀ n, get_last_counter user st = Some n → n < (t' - w) / period tp) →
  returned (verify_totp self tok secret user (Some w) t' st) = Ok true.
Proof.
  intros Hsrc Hgen Hnear Hlast.
  pose proof (generate_totp_password_inv self secret t) as Hinv.
  rewrite Hgen in Hinv. destruct Hinv as (tp' & Hsrc' & Hnow & Hcenter & ->).
  assert (tp' = tp) as -> by congruence.
  destruct (from_source_Ok _ _ _ Hsrc) as [Hdigits Hperiod].
  assert (0 ≤ w) as Hw by lia.
  apply (verify_totp_window methods self _ secret user w t' st tp Hsrc Hw Hlast).
  exists (center_counter tp t). split; [| apply normalize_generated; lia].
  unfold center_counter in *.
  assert ((t' - w) / period tp ≤ t / period tp) by (apply Z.div_le_mono; lia).
  assert (t / period tp ≤ (t' + w) / period tp) by (apply Z.div_le_mono; lia).
  lia.
Qed.

(** X4: a token that is empty, not made of digits, or not of the secret's
    token length gets a plain [False], for a secret that decodes and a
    window that is not negative; nothing is written.  Blanks, hyphens and
    equal signs in the token do not count. *)
Theorem malformed_token_is_false
        (self : Totp) (token : string) (secret : Source) (user : User)
        (window : option Z) (now : Z) (st : St) (tp : TOTP) :
  from_source (_totp self) secret = Ok tp →
  0 ≤ default 0 window →
  (clean token = EmptyString
   ∨ all_digits (clean token) = false
   ∨ String.length (clean token) ≠ digits tp) →
  let run := verify_totp self token secret user window now st in
  returned run = Ok false ∧ state_after run = st ∧ writes (calls_of run) = [].
Proof.
  intros Hsrc Hw Hbad run. subst run.
  assert (normalize_token tp token = Raise (TokenError MalformedTokenError)) as Hnorm.
  { unfold normalize_token.
    destruct (isdigit (clean token)) eqn:Hdig; simpl; [| reflexivity].
    destruct (Nat.eqb_spec (String.length (clean token)) (digits tp)) as [Hlen | Hlen];
      simpl; [| reflexivity].
    exfalso. destruct Hbad as [Hempty | [Hnd | Hnl]].
    - rewrite Hempty in Hdig. discriminate.
    - unfold isdigit in Hdig. destruct (clean token); congruence.
    - contradiction. }
  rewrite verify_totp_unfold. unfold verify. rewrite Hsrc. simpl.
  unfold match_, _find_match. rewrite Hnorm.
  destruct (Z.ltb_spec (default 0 window) 0); [lia |]. simpl.
  unfold returned, state_after, calls_of, writes. simpl. done.
Qed.

(** X5: a negative [window] is not a verification failure: for a secret
    that decodes, [verify_totp] raises [ValueError] to its caller, whatever
    the token, and writes nothing. *)
Theorem negative_window_is_raised
        (self : Totp) (token : string) (secret : Source) (user : User)
        (w : Z) (now : Z) (st : St) (tp : TOTP) :
  from_source (_totp self) secret = Ok tp →
  w < 0 →
  let run := verify_totp self token secret user (Some w) now st in
  returned run = Raise (ValueError "window must be >= 0")
  ∧ state_after run = st
  ∧ writes (calls_of run) = [].
Proof.
  intros Hsrc Hw run. subst run.
  rewrite verify_totp_unfold. simpl default. unfold verify. rewrite Hsrc. simpl.
  unfold match_. destruct (Z.ltb_spec w 0); [| lia].
  unfold returned, state_after, calls_of, writes. simpl. done.
Qed.

(** X6: a call only ever talks to the accessors about its own user: every
    logged call names [user]; and with a storing subclass the stored counter
    of any other user is the same before and after the call. *)
Theorem other_users_are_untouched
        (self : Totp) (token : string) (secret : Source) (user : User)
        (window : option Z) (now : Z) (st : St) :
  let run := verify_totp self token secret user window now st in
  (∀ c, In c (calls_of run) →
        c = GetLastCounter user ∨ ∃ m, c = SetLastCounter user (PyTotpMatch m))
  ∧ (StoresLastCounter methods →
     ∀ user', user ≠ user' →
              get_last_counter user' (state_after run) = get_last_counter user' st).
Proof.
  intros run. subst run. rewrite verify_totp_unfold.
  destruct (verify _ _ _ _ _ _) as [m|e].
  - unfold calls_of, state_after; simpl. split.
    + intros c [<- | [<- | []]]; eauto.
    + intros Hstores user' Hne. by apply get_set_other.
  - destruct (is_TokenError e); unfold calls_of, state_after; simpl; split;
      try (intros c [<- | []]; eauto); done.
Qed.

End MoreVerify.

(* ===================================================================== *)
(** ** Further properties: the stored counter over time                    *)
(* ===================================================================== *)

Section MoreReplay.
Context {B : Backend} {User : Type} `{EqDecision User} {St : Type}.
Context (methods : LastCounterMethods User St) {stores : StoresLastCounter methods}.

(** X7: with a storing subclass, an accepting call moves the user's stored
    counter strictly forward, to a counter that is not negative and lies in
    the call's time window; and over any sequence of requests a stored
    counter never goes back and never disappears. *)
Theorem stored_counter_only_moves_forward
        (self : Totp) (token : string) (secret : Source) (user : User)
        (window : option Z) (now : Z) (st : St) :
  let run := verify_totp self token secret user window now st in
  let w := default 0 window in
  (returned run = Ok true →
   ∃ (c : Z) (tp : TOTP),
     from_source (_totp self) secret = Ok tp
     ∧ get_last_counter user (state_after run) = Some c
     ∧ 0 ≤ c
     ∧ (now - w) / period tp ≤ c ≤ (now + w) / period tp
     ∧ ∀ n, get_last_counter user st = Some n → n < c)
  ∧ (∀ (rqs : list (request User)) (n : Z),
       get_last_counter user st = Some n →
       ∃ n', get_last_counter user (serve_all self rqs st) = Some n' ∧ n ≤ n').
Proof.
  intros run w. split.
  - intros Htrue.
    destruct (verify_totp_true methods _ _ _ _ _ _ _ Htrue) as [m Hv].
    subst run. rewrite verify_totp_unfold, Hv. unfold state_after; simpl.
    apply verify_Ok in Hv as (tp & Hsrc & Hm).
    apply match_Ok in Hm as (_ & _ & _ & Hin & Hlt).
    exists (counter m), tp. fold w in Hin.
    unfold search_first, search_last in Hin.
    repeat split; try done; try lia.
    + apply get_set_same.
    + intros n Hn. rewrite Hn in Hlt. simpl in Hlt. lia.
  - intros rqs n Hn. apply serve_all_keeps_counter; eauto with lia.
Qed.


End MoreReplay.

(* ===================================================================== *)
(** ** Further properties: stored secrets, instances and keyrings          *)
(* ===================================================================== *)

Section MoreSecrets.
Context {B : Backend} (laws : BackendLaws B).

(** An instance that [__init__] returned holds the dict it was given, which
    is not empty, with the designated tag among its keys. *)
Lemma init_Ok (secrets : pyval) (issuer : string) (self : Totp) :
  __init__ secrets issuer = Ok self →
  ∃ d, secrets = PyDict d
       ∧ d ≠ ∅
       ∧ self = {| _totp := {| wallet := {| keys := d; current := designate d |};
                               factory_issuer := issuer |} |}
       ∧ is_Some (d !! designate d).
Proof.
  intros Hinit.
  destruct secrets as [| | | | | d |]; try discriminate. simpl in Hinit.
  destruct (Nat.ltb_spec (size d) 1) as [| Hsize]; [discriminate |].
  unfold using_ in Hinit. destruct (accepts d issuer); [| discriminate].
  simpl in Hinit. injection Hinit as <-.
  assert (d ≠ ∅) as Hne.
  { intros ->. rewrite map_size_empty in Hsize. lia. }
  exists d. repeat split; try done. by apply designate_present.
Qed.

(** The envelope of a generated secret, spelled out. *)
Lemma generate_totp_secret_Ok (secrets : pyval) (issuer : string) (self : Totp)
      (rnd salt : string) :
  __init__ secrets issuer = Ok self →
  ∃ d secret,
    secrets = PyDict d
    ∧ d !! designate d = Some secret
    ∧ keys (wallet (_totp self)) = d
    ∧ generate_totp_secret self rnd salt =
        Ok (Json {| key_id := designate d; salt := salt;
                    ciphertext := seal secret salt rnd;
                    env_alg := default_alg; env_digits := default_digits;
                    env_period := default_period; env_issuer := issuer |}).
Proof.
  intros Hinit.
  destruct (init_Ok _ _ _ Hinit) as (d & -> & Hne & -> & [secret Hsecret]).
  exists d, secret. repeat split; try done.
  unfold generate_totp_secret, to_json, encrypt. simpl. by rewrite Hsecret.
Qed.

(** A keyring that still has the key an envelope is tagged with decodes the
    envelope to the key it was generated around. *)
Lemma from_source_generated (cls : TOTPFactory) (tag secret salt rnd issuer : string) :
  keys (wallet cls) !! tag = Some secret →
  from_source cls
    (Json {| key_id := tag; salt := salt; ciphertext := seal secret salt rnd;
             env_alg := default_alg; env_digits := default_digits;
             env_period := default_period; env_issuer := issuer |})
  = Ok {| key := rnd; digits := default_digits; alg := default_alg;
          period := default_period; issuer := issuer |}.
Proof.
  intros Hkey. unfold from_source, decrypt. simpl.
  rewrite Hkey, unseal_seal. reflexivity.
Qed.

(** X9: enrolment end to end.  On an instance that [__init__] returned, with
    a storing subclass that has nothing stored for the user: the secret
    from [generate_totp_secret] is accepted by [generate_totp_password] at
    any clock reading from the epoch on, the password it gives verifies at
    that reading with [window] left out, and submitting the same password
    again then returns [False]. *)
Theorem enrolment_end_to_end
        {User : Type} {St : Type}
        (methods : LastCounterMethods User St) (stores : StoresLastCounter methods)
        (secrets : pyval) (issuer : string) (self : Totp)
        (rnd salt : string) (user : User) (now : Z) (st : St) :
  __init__ secrets issuer = Ok self →
  0 ≤ now →
  get_last_counter user st = None →
  ∃ (stored : Source) (password : string),
    generate_totp_secret self rnd salt = Ok stored
    ∧ generate_totp_password self stored now = Ok password
    ∧ let run := verify_totp self password stored user None now st in
      returned run = Ok true
      ∧ get_last_counter user (state_after run) = Some (now / default_period)
      ∧ returned (verify_totp self password stored user None now (state_after run))
        = Ok false.
Proof.
  intros Hinit Hnow Hnone.
  destruct (generate_totp_secret_Ok secrets issuer self rnd salt Hinit)
    as (d & secret & -> & Hsecret & Hkeys & Hgen).
  set (stored := Json {| key_id := designate d; salt := salt;
                         ciphertext := seal secret salt rnd;
                         env_alg := default_alg; env_digits := default_digits;
                         env_period := default_period; env_issuer := issuer |}) in *.
  set (tp := {| key := rnd; digits := default_digits; alg := default_alg;
                period := default_period; issuer := issuer |}).
  assert (from_source (_totp self) stored = Ok tp) as Hsrc.
  { apply from_source_generated. by rewrite Hkeys. }
  assert (0 ≤ center_counter tp now) as Hcenter.
  { unfold center_counter. simpl. apply Z.div_pos; [exact Hnow | reflexivity]. }
  assert (generate_totp_password self stored now = Ok (_generate tp (center_counter tp now)))
    as Hpw.
  { unfold generate_totp_password. rewrite Hsrc. simpl.
    unfold generate, _time_to_counter. fold (center_counter tp now).
    destruct (Z.ltb_spec (center_counter tp now) 0); [lia | reflexivity]. }
  exists stored, (_generate tp (center_counter tp now)).
  split; [exact Hgen |]. split; [exact Hpw |].
  assert (verify_totp self (_generate tp (center_counter tp now)) stored user None now st
          = (Ok true,
             set_last_counter user
               {| totp := tp; counter := center_counter tp now; time := now; window := 0 |}
               st,
             [GetLastCounter user;
              SetLastCounter user
                (PyTotpMatch {| totp := tp; counter := center_counter tp now;
                                time := now; window := 0 |})])) as Hrun.
  { apply current_token_accepted; [exact Hsrc | exact Hcenter |].
    intros n Hn. congruence. }
  intros run.
  assert (returned run = Ok true) as Htrue by (subst run; by rewrite Hrun).
  assert (state_after run
          = set_last_counter user
              {| totp := tp; counter := center_counter tp now; time := now; window := 0 |}
              st) as Hstate by (subst run; by rewrite Hrun).
  assert (get_last_counter user (state_after run) = Some (now / default_period)) as Hget.
  { rewrite Hstate, get_set_same. reflexivity. }
  split; [exact Htrue |]. split; [exact Hget |].
  destruct (stale_token_rejected (_totp self) (_generate tp (center_counter tp now))
              stored now 0 (now / default_period) tp Hsrc) as [k Hk]; [lia | | |].
  { apply (normalized_generated_ascii tp _ (center_counter tp now)).
    apply normalize_generated. simpl. unfold default_digits. lia. }
  { intros i Hi Hin _. simpl in Hin.
    replace (now + 0) with now in Hin by lia. lia. }
  destruct (verify_totp_raise methods self (_generate tp (center_counter tp now))
              stored user None now (state_after run) (TokenError k))
    as (_ & _ & Hfalse).
  { rewrite Hget. exact Hk. }
  by apply Hfalse.
Qed.

(** X10: the provisioning URI of a stored secret is the URI of the key it was
    generated around, with the instance's issuer and the default token
    parameters: [get_totp_uri] on the output of [generate_totp_secret]
    renders exactly what [to_uri] renders for the fresh [TOTP]; and when the
    stored secret does not decode, [get_totp_uri] raises the decoder's error
    and renders nothing. *)
Theorem uri_of_generated_secret
        (to_uri : TOTP → string → result string)
        (secrets : pyval) (issuer : string) (self : Totp)
        (rnd salt username : string) :
  __init__ secrets issuer = Ok self →
  (∃ stored,
     generate_totp_secret self rnd salt = Ok stored
     ∧ get_totp_uri to_uri self username stored
       = to_uri {| key := rnd; digits := 6; alg := "sha1"; period := 30;
                   issuer := issuer |} username)
  ∧ (∀ secret e, from_source (_totp self) secret = Raise e →
                 get_totp_uri to_uri self username secret = Raise e).
Proof.
  intros Hinit. split.
  - destruct (generate_totp_secret_Ok secrets issuer self rnd salt Hinit)
      as (d & secret & -> & Hsecret & Hkeys & Hgen).
    eexists. split; [exact Hgen |].
    unfold get_totp_uri. rewrite from_source_generated by (by rewrite Hkeys).
    reflexivity.
  - intros secret e Hsrc. unfold get_totp_uri. by rewrite Hsrc.
Qed.

(** X11: key rotation.  A secret stored by an instance keeps working on any
    instance whose keyring maps the envelope's key id to the same key,
    whatever other keys were added and whichever key is now current: same
    passwords and the same outcome of [verify_totp] in every state.  On an
    instance whose keyring lost that key id, [verify_totp] raises
    [UnknownKeyError] and writes nothing. *)
Theorem stored_secret_survives_rotation
        {User : Type} {St : Type} (methods : LastCounterMethods User St)
        (secrets : pyval) (issuer : string) (self self' : Totp)
        (rnd salt : string) (env : Envelope) :
  __init__ secrets issuer = Ok self →
  generate_totp_secret self rnd salt = Ok (Json env) →
  (keys (wallet (_totp self')) !! key_id env
   = keys (wallet (_totp self)) !! key_id env →
   (∀ now, generate_totp_password self' (Json env) now
           = generate_totp_password self (Json env) now)
   ∧ (∀ token (user : User) window now (st : St),
        verify_totp self' token (Json env) user window now st
        = verify_totp self token (Json env) user window now st))
  ∧ (keys (wallet (_totp self')) !! key_id env = None →
     ∀ token (user : User) window now (st : St),
       let run := verify_totp self' token (Json env) user window now st in
       returned run = Raise (UnknownKeyError (key_id env))
       ∧ state_after run = st
       ∧ writes (calls_of run) = []).
Proof.
  intros Hinit Hgen.
  destruct (generate_totp_secret_Ok secrets issuer self rnd salt Hinit)
    as (d & secret & -> & Hsecret & Hkeys & Hgen').
  rewrite Hgen' in Hgen. injection Hgen as <-. simpl key_id. split.
  - intros Hkept. rewrite Hkeys, Hsecret in Hkept.
    assert (from_source (_totp self')
              (Json {| key_id := designate d; salt := salt;
                       ciphertext := seal secret salt rnd;
                       env_alg := default_alg; env_digits := default_digits;
                       env_period := default_period; env_issuer := issuer |})
            = from_source (_totp self)
                (Json {| key_id := designate d; salt := salt;
                         ciphertext := seal secret salt rnd;
                         env_alg := default_alg; env_digits := default_digits;
                         env_period := default_period; env_issuer := issuer |}))
      as Hsame.
    { rewrite !from_source_generated; [reflexivity | by rewrite Hkeys | exact Hkept]. }
    split.
    + intros now. unfold generate_totp_password. by rewrite Hsame.
    + intros token user window now st. rewrite !verify_totp_unfold.
      unfold verify. by rewrite Hsame.
  - intros Hlost token user window now st run. subst run.
    rewrite verify_totp_unfold. unfold verify, from_source, decrypt. simpl.
    rewrite Hlost. simpl.
    unfold returned, state_after, calls_of, writes. simpl. done.
Qed.

End MoreSecrets.

(* ===================================================================== *)
(** ** Further runs on the RFC 4226 secret                                 *)
(* ===================================================================== *)

Section MoreRuns.
Import Rfc Samples.

Example password_at_45 :
  generate_totp_password (B := backend) rfc_self rfc_source 45 = Ok "287082"%string.
Proof. vm_compute. reflexivity. Qed.

Example nothing_stored (user : string) (n : Z) :
  get_last_counter (LastCounterMethods := cache_methods) user ∅ ≠ Some n.
Proof. simpl. by rewrite lookup_empty. Qed.

(** The password of second 45 verifies at second 45. *)
Lemma fresh_password_witness :
  from_source (B := backend) (_totp rfc_self) rfc_source = Ok rfc_totp
  ∧ generate_totp_password (B := backend) rfc_self rfc_source 45 = Ok "287082"%string
  ∧ returned (cached_verify_totp rfc_self "287082" rfc_source alice None 45 ∅) = Ok true.
Proof.
  split; [exact rfc_source_decodes |]. split; [exact password_at_45 |].
  assert (∀ n, get_last_counter (LastCounterMethods := cache_methods) alice ∅ = Some n →
               n < center_counter rfc_totp 45) as Hlast.
  { intros n Hn. by destruct (nothing_stored alice n). }
  exact (proj1 (fresh_password_verifies (B := backend) cache_methods rfc_self rfc_source
                  alice 45 ∅ "287082" rfc_totp rfc_source_decodes password_at_45
                  Hlast)).
Defined.

(** The password of second 45 verifies at second 70 with [window=30]. *)
Lemma within_window_witness :
  generate_totp_password (B := backend) rfc_self rfc_source 45 = Ok "287082"%string
  ∧ 70 - 30 ≤ 45 ≤ 70 + 30
  ∧ returned (cached_verify_totp rfc_self "287082" rfc_source alice (Some 30) 70 ∅)
    = Ok true.
Proof.
  assert (70 - 30 ≤ 45 ≤ 70 + 30) as Hnear by lia.
  split; [exact password_at_45 |]. split; [exact Hnear |].
  apply (password_verifies_within_window (B := backend) cache_methods rfc_self
           rfc_source alice 45 70 30 ∅ "287082" rfc_totp rfc_source_decodes
           password_at_45 Hnear).
  intros n Hn. by destruct (nothing_stored alice n).
Defined.

(** A token of four digits, written with a blank. *)
Lemma malformed_token_witness :
  from_source (B := backend) (_totp rfc_self) rfc_source = Ok rfc_totp
  ∧ String.length (clean "12 34") ≠ digits rfc_totp
  ∧ returned (cached_verify_totp rfc_self "12 34" rfc_source alice None 45 ∅) = Ok false.
Proof.
  assert (String.length (clean "12 34") ≠ digits rfc_totp) as Hlen
      by (vm_compute; discriminate).
  assert (0 ≤ default 0 (@None Z)) as Hw by (simpl; lia).
  split; [exact rfc_source_decodes |]. split; [exact Hlen |].
  exact (proj1 (malformed_token_is_false (B := backend) cache_methods rfc_self "12 34"
                  rfc_source alice None 45 ∅ rfc_totp rfc_source_decodes Hw
                  (or_intror (or_intror Hlen)))).
Defined.

(** A window of minus one second. *)
Lemma negative_window_witness :
  from_source (B := backend) (_totp rfc_self) rfc_source = Ok rfc_totp
  ∧ returned (cached_verify_totp rfc_self "287082" rfc_source alice (Some (-1)) 45 ∅)
    = Raise (ValueError "window must be >= 0").
Proof.
  assert (-1 < 0) as Hw by lia.
  split; [exact rfc_source_decodes |].
  exact (proj1 (negative_window_is_raised (B := backend) cache_methods rfc_self "287082"
                  rfc_source alice (-1) 45 ∅ rfc_totp rfc_source_decodes Hw)).
Defined.

(** Alice's accepted call leaves Bob's entry alone. *)
Lemma other_users_witness :
  alice ≠ bob
  ∧ get_last_counter (LastCounterMethods := cache_methods) bob (state_after first_run)
    = get_last_counter (LastCounterMethods := cache_methods) bob ∅.
Proof.
  assert (alice ≠ bob) as Hne by discriminate.
  split; [exact Hne |].
  exact (proj2 (other_users_are_untouched (B := backend) cache_methods rfc_self "287082"
                  rfc_source alice None 45 ∅) cache_stores bob Hne).
Defined.

Example first_run_true : returned first_run = Ok true.
Proof. rewrite first_run_value. reflexivity. Qed.

(** The accepted run stores a counter of its window. *)
Lemma stored_counter_witness :
  returned first_run = Ok true
  ∧ ∃ (c : Z) (tp : TOTP),
      from_source (B := backend) (_totp rfc_self) rfc_source = Ok tp
      ∧ get_last_counter (LastCounterMethods := cache_methods) alice
                         (state_after first_run) = Some c
      ∧ 0 ≤ c
      ∧ (45 - default 0 None) / period tp ≤ c ≤ (45 + default 0 None) / period tp
      ∧ ∀ n, get_last_counter (LastCounterMethods := cache_methods) alice ∅ = Some n →
             n < c.
Proof.
  split; [exact first_run_true |].
  exact (proj1 (stored_counter_only_moves_forward (B := backend) cache_methods
                  (stores := cache_stores) rfc_self "287082" rfc_source alice None 45 ∅)
               first_run_true).
Defined.


(** Enrolment on the sample keyring. *)
Lemma enrolment_witness :
  __init__ (B := backend) (PyDict app_secrets) "flask" = Ok rfc_self
  ∧ ∃ (stored : Source) (password : string),
      generate_totp_secret (B := backend) rfc_self rfc_key "salt" = Ok stored
      ∧ generate_totp_password (B := backend) rfc_self stored 45 = Ok password
      ∧ returned (cached_verify_totp rfc_self password stored alice None 45 ∅) = Ok true
      ∧ get_last_counter (LastCounterMethods := cache_methods) alice
          (state_after (cached_verify_totp rfc_self password stored alice None 45 ∅))
        = Some (45 / default_period)
      ∧ returned (cached_verify_totp rfc_self password stored alice None 45
                    (state_after
                       (cached_verify_totp rfc_self password stored alice None 45 ∅)))
        = Ok false.
Proof.
  assert (0 ≤ 45) as Hnow by lia.
  split; [exact rfc_self_built |].
  exact (enrolment_end_to_end (B := backend) backend_laws cache_methods cache_stores
           (PyDict app_secrets) "flask" rfc_self rfc_key "salt" alice 45 ∅
           rfc_self_built Hnow (lookup_empty alice)).
Defined.

(** The URI of the sample secret. *)
Lemma uri_witness :
  __init__ (B := backend) (PyDict app_secrets) "flask" = Ok rfc_self
  ∧ ∃ stored,
      generate_totp_secret (B := backend) rfc_self rfc_key "salt" = Ok stored
      ∧ get_totp_uri (B := backend) plain_uri rfc_self "alice@example.org" stored
        = plain_uri {| key := rfc_key; digits := 6; alg := "sha1"; period := 30;
                       issuer := "flask" |} "alice@example.org".
Proof.
  split; [exact rfc_self_built |].
  exact (proj1 (uri_of_generated_secret (B := backend) backend_laws plain_uri
                  (PyDict app_secrets) "flask" rfc_self rfc_key "salt"
                  "alice@example.org" rfc_self_built)).
Defined.

Example key_2_kept :
  keys (wallet (_totp rotated_self)) !! key_id rfc_envelope
  = keys (wallet (_totp rfc_self)) !! key_id rfc_envelope.
Proof. vm_compute. reflexivity. Qed.

Example key_2_lost : keys (wallet (_totp retired_self)) !! key_id rfc_envelope = None.
Proof. vm_compute. reflexivity. Qed.

(** The sample secret after a rotation that keeps key "2" and after one
    that drops it. *)
Lemma rotation_witness :
  __init__ (B := backend) (PyDict app_secrets) "flask" = Ok rfc_self
  ∧ generate_totp_secret (B := backend) rfc_self rfc_key "salt" = Ok (Json rfc_envelope)
  ∧ (∀ now, generate_totp_password (B := backend) rotated_self (Json rfc_envelope) now
            = generate_totp_password (B := backend) rfc_self (Json rfc_envelope) now)
  ∧ returned (cached_verify_totp retired_self "287082" (Json rfc_envelope) alice None 45 ∅)
    = Raise (UnknownKeyError "2").
Proof.
  split; [exact rfc_self_built |]. split; [exact rfc_source_generated |]. split.
  - exact (proj1 (proj1 (stored_secret_survives_rotation (B := backend) backend_laws
                           (cache_methods (User := string))
                           (PyDict app_secrets) "flask" rfc_self rotated_self
                           rfc_key "salt" rfc_envelope rfc_self_built
                           rfc_source_generated) key_2_kept)).
  - exact (proj1 (proj2 (stored_secret_survives_rotation (B := backend) backend_laws
                           (cache_methods (User := string))
                           (PyDict app_secrets) "flask" rfc_self retired_self
                           rfc_key "salt" rfc_envelope rfc_self_built
                           rfc_source_generated) key_2_lost "287082"%string alice None 45 ∅)).
Defined.

End MoreRuns.
